(** * The portfolio ETL pipeline (src/portfolio/etl/pipeline.py)

    A shallow embedding of the transform stage of [ProjectETLPipeline]:
    per-record enrichment, the analytics fold and the insight generator,
    together with the parts of the Python library they call.

    Conventions of the model.
    - A Python [str] is a Rocq [string]; a character is the code point
      0..255 (the Latin-1 block, where [str.lower], [str.isspace] and the
      [re] classes are given by the tables below). Code points above
      U+00FF are outside the model.
    - A JSON document is a [value]; JSON numbers are integers ([VInt]).
      Fractional numbers are outside the model. The two float results of
      the insight generator are kept as the unevaluated quotients.
    - A Python dict is an association list in insertion order with
      pairwise distinct keys; [d[k] = v] overwrites in place or appends.
    - A raised exception is the [Raise] branch of [result].
    - [datetime.now()] is an input: the wall-clock reading in
      microseconds since 0001-01-01T00:00:00.
    - [datetime.fromisoformat] accepts the strings [isoformat()] writes;
      the further ISO-8601 spellings of later CPython releases are
      outside the model. *)

From Stdlib Require Import ZArith List Bool Ascii String Lia Permutation.
From Stdlib Require Import Numbers.DecimalString.
Import ListNotations.

Local Open Scope string_scope.
Local Open Scope list_scope.
Local Open Scope Z_scope.

(** ** Characters and strings *)

Module PyStr.

Definition code (c : ascii) : N := N_of_ascii c.

Definition in_range (lo hi : N) (c : ascii) : bool :=
  (N.leb lo (code c) && N.leb (code c) hi)%bool.

(** [str.isspace] on one character, which is also the class [\s] of [re]
    for str patterns. *)
Definition is_space (c : ascii) : bool :=
  in_range 9 13 c || in_range 28 32 c || N.eqb (code c) 133
  || N.eqb (code c) 160.

(** [str.isalnum] on one character. *)
Definition is_alnum (c : ascii) : bool :=
  in_range 48 57 c || in_range 65 90 c || in_range 97 122 c
  || N.eqb (code c) 170 || in_range 178 179 c || N.eqb (code c) 181
  || in_range 185 186 c || in_range 188 190 c || in_range 192 214 c
  || in_range 216 246 c || in_range 248 255 c.

(** The class [\w] of [re] for str patterns. *)
Definition is_word (c : ascii) : bool := is_alnum c || Ascii.eqb c "_".

Definition is_hyphen (c : ascii) : bool := Ascii.eqb c "-".

Definition lower_char (c : ascii) : ascii :=
  if in_range 65 90 c || in_range 192 214 c || in_range 216 222 c
  then ascii_of_N (code c + 32) else c.

Definition chars (s : string) : list ascii := list_ascii_of_string s.
Definition str (l : list ascii) : string := string_of_list_ascii l.

(** [s.lower()] *)
Definition lower (s : string) : string := str (map lower_char (chars s)).

(** Removal of the longest prefix, and of the longest suffix, of
    characters in the class [p]. *)
Fixpoint lstrip (p : ascii -> bool) (l : list ascii) : list ascii :=
  match l with
  | [] => []
  | c :: t => if p c then lstrip p t else l
  end.

Fixpoint rstrip (p : ascii -> bool) (l : list ascii) : list ascii :=
  match l with
  | [] => []
  | c :: t =>
      match rstrip p t with
      | [] => if p c then [] else [c]
      | t' => c :: t'
      end
  end.

Definition strip_by (p : ascii -> bool) (l : list ascii) : list ascii :=
  rstrip p (lstrip p l).

(** [s.strip()] and [s.strip('-')] *)
Definition strip (s : string) : string := str (strip_by is_space (chars s)).
Definition strip_hyphens (s : string) : string :=
  str (strip_by is_hyphen (chars s)).

(** [s.replace(c, by)] for a one-character pattern. *)
Fixpoint replace_char (c : ascii) (by_ : string) (s : string) : string :=
  match s with
  | EmptyString => EmptyString
  | String a t =>
      if Ascii.eqb a c then by_ ++ replace_char c by_ t
      else String a (replace_char c by_ t)
  end.

(** [s.split(sep)] for a non-empty separator [String c0 sep']: the
    pieces between the non-overlapping occurrences found left to right.
    [cur] holds the characters of the current piece in reverse. *)
Fixpoint split_go (c0 : ascii) (sep' : string) (cur : list ascii)
    (s : string) (fuel : nat) : list string :=
  match fuel, s with
  | _, EmptyString => [str (rev cur)]
  | O, _ => [str (rev cur)]
  | S fuel', String a t =>
      if (Ascii.eqb a c0 && String.prefix sep' t)%bool
      then str (rev cur)
           :: split_go c0 sep' []
                (String.substring (String.length sep')
                   (String.length t - String.length sep') t) fuel'
      else split_go c0 sep' (a :: cur) t fuel'
  end.

Definition split (sep s : string) : list string :=
  match sep with
  | EmptyString => [s]
  | String c0 sep' => split_go c0 sep' [] s (String.length s)
  end.

(** [sep.join(parts)] *)
Definition join (sep : string) (parts : list string) : string :=
  String.concat sep parts.

(** [s[:n]] *)
Definition take (n : nat) (s : string) : string := String.substring 0 n s.

(** [str(n)] for an integer. *)
Definition of_Z (n : Z) : string := NilZero.string_of_int (Z.to_int n).

End PyStr.

(** ** [_generate_slug] *)

Module Slug.
Import PyStr.

(** [re.sub(r'[^\w\s-]', '', s)]: every character outside the class is
    deleted. *)
Definition keep (c : ascii) : bool := is_word c || is_space c || is_hyphen c.

Definition sub_special (l : list ascii) : list ascii := filter keep l.

(** [re.sub(r'[\s_-]+', '-', s)]: every maximal run of separator
    characters is replaced by one hyphen. [in_run] tells that the
    previous character belonged to a run. *)
Definition is_sep (c : ascii) : bool :=
  is_space c || Ascii.eqb c "_" || is_hyphen c.

Fixpoint sub_seps (in_run : bool) (l : list ascii) : list ascii :=
  match l with
  | [] => []
  | c :: t =>
      if is_sep c
      then if in_run then sub_seps true t else "-"%char :: sub_seps true t
      else c :: sub_seps false t
  end.

Definition slug_chars (l : list ascii) : list ascii :=
  strip_by is_hyphen
    (sub_seps false (sub_special (strip_by is_space (map lower_char l)))).

Definition _generate_slug (title : string) : string :=
  str (slug_chars (chars title)).

(** The shape of a slug: no two hyphens are adjacent ([prev] tells
    that a hyphen precedes), and every character is one the steps above
    leave alone. *)
Fixpoint spaced (prev : bool) (l : list ascii) : bool :=
  match l with
  | [] => true
  | c :: t => if is_hyphen c then negb prev && spaced true t else spaced false t
  end.

Definition settled (c : ascii) : Prop :=
  lower_char c = c /\ keep c = true /\ is_space c = false
  /\ (is_sep c = true -> is_hyphen c = true).

End Slug.

(** ** JSON values, dicts and exceptions *)

Unset Elimination Schemes.

Inductive value : Type :=
| VNone
| VBool (b : bool)
| VInt (n : Z)
| VStr (s : string)
| VList (items : list value)
| VDict (entries : list (string * value)).

Set Elimination Schemes.

(** A project record, and an enriched one, is a dict with str keys. *)
Definition record : Type := list (string * value).

Inductive exn : Type :=
| KeyError (key : string)
| TypeError
| AttributeError.

Inductive result (A : Type) : Type :=
| Ok (a : A)
| Raise (e : exn).

Arguments Ok {A} a.
Arguments Raise {A} e.

Definition bind {A B : Type} (c : result A) (k : A -> result B) : result B :=
  match c with
  | Ok a => k a
  | Raise e => Raise e
  end.

Notation "x <- c ;; k" := (bind c (fun x => k))
  (at level 61, c at next level, right associativity).

Module Dict.

Section Ops.
Context {A : Type}.

(** [k in d] and [d.get(k)] *)
Fixpoint get (k : string) (d : list (string * A)) : option A :=
  match d with
  | [] => None
  | (k', v) :: t => if String.eqb k k' then Some v else get k t
  end.

Definition mem (k : string) (d : list (string * A)) : bool :=
  match get k d with Some _ => true | None => false end.

(** [d.get(k, default)] *)
Definition get_default (k : string) (default : A) (d : list (string * A)) : A :=
  match get k d with Some v => v | None => default end.

(** [d[k]] *)
Definition getitem (k : string) (d : list (string * A)) : result A :=
  match get k d with Some v => Ok v | None => Raise (KeyError k) end.

(** [d[k] = v] *)
Fixpoint set (k : string) (v : A) (d : list (string * A)) : list (string * A) :=
  match d with
  | [] => [(k, v)]
  | (k', v') :: t =>
      if String.eqb k k' then (k', v) :: t else (k', v') :: set k v t
  end.

End Ops.

End Dict.

(** [bool(v)] *)
Definition truthy (v : value) : bool :=
  match v with
  | VNone => false
  | VBool b => b
  | VInt n => negb (Z.eqb n 0)
  | VStr s => negb (String.eqb s "")
  | VList l => match l with [] => false | _ => true end
  | VDict d => match d with [] => false | _ => true end
  end.

(** ** [datetime] *)

Module Datetime.
Import PyStr.

(** A datetime: the wall-clock fields as microseconds since
    0001-01-01T00:00:00, and the UTC offset in microseconds of an aware
    value ([None] for a naive one). *)
Record datetime : Type := mk_datetime {
  wall : Z;
  utcoffset : option Z
}.

Definition us_per_second : Z := 1000000.
Definition us_per_day : Z := 86400 * us_per_second.

Definition is_leap (y : Z) : bool :=
  (y mod 4 =? 0) && (negb (y mod 100 =? 0) || (y mod 400 =? 0)).

Definition days_in_month (y m : Z) : Z :=
  if m =? 2 then (if is_leap y then 29 else 28)
  else if (m =? 4) || (m =? 6) || (m =? 9) || (m =? 11) then 30
  else 31.

Definition days_before_year (y : Z) : Z :=
  let p := y - 1 in p * 365 + p / 4 - p / 100 + p / 400.

Definition days_before_month (y m : Z) : Z :=
  fold_left (fun acc k => acc + days_in_month y k)
    (map Z.of_nat (seq 1 (Z.to_nat (m - 1)))) 0.

(** The proleptic Gregorian ordinal: 1 for 0001-01-01. *)
Definition ordinal (y m d : Z) : Z :=
  days_before_year y + days_before_month y m + d.

Definition digit (c : ascii) : option Z :=
  if in_range 48 57 c then Some (Z.of_N (code c) - 48) else None.

(** Exactly [n] decimal digits. *)
Fixpoint digits (n : nat) (acc : Z) (l : list ascii) : option (Z * list ascii) :=
  match n with
  | O => Some (acc, l)
  | S n' =>
      match l with
      | [] => None
      | c :: t =>
          match digit c with
          | Some d => digits n' (10 * acc + d) t
          | None => None
          end
      end
  end.

Definition expect (c : ascii) (l : list ascii) : option (list ascii) :=
  match l with
  | a :: t => if Ascii.eqb a c then Some t else None
  | [] => None
  end.

(** [.fff[fff]]: three or six digits, scaled to microseconds. *)
Definition fraction (l : list ascii) : option (Z * list ascii) :=
  match digits 6 0 l with
  | Some r => Some r
  | None =>
      match digits 3 0 l with
      | Some (ms, rest) => Some (ms * 1000, rest)
      | None => None
      end
  end.

(** [HH[:MM[:SS[.fff[fff]]]]], giving the microseconds since midnight. *)
Definition time_of_day (l : list ascii) : option (Z * list ascii) :=
  match digits 2 0 l with
  | None => None
  | Some (hh, r1) =>
      if negb (hh <? 24) then None else
      match expect ":" r1 with
      | None => Some (hh * 3600 * us_per_second, r1)
      | Some r2 =>
          match digits 2 0 r2 with
          | None => None
          | Some (mi, r3) =>
              if negb (mi <? 60) then None else
              match expect ":" r3 with
              | None => Some ((hh * 3600 + mi * 60) * us_per_second, r3)
              | Some r4 =>
                  match digits 2 0 r4 with
                  | None => None
                  | Some (ss, r5) =>
                      if negb (ss <? 60) then None else
                      let secs := hh * 3600 + mi * 60 + ss in
                      match expect "." r5 with
                      | None => Some (secs * us_per_second, r5)
                      | Some r6 =>
                          match fraction r6 with
                          | None => None
                          | Some (us, r7) =>
                              Some (secs * us_per_second + us, r7)
                          end
                      end
                  end
              end
          end
      end
  end.

(** [HH:MM[:SS[.ffffff]]] after the sign of a UTC offset, to the end of
    the string. *)
Definition offset_body (l : list ascii) : option Z :=
  match digits 2 0 l with
  | None => None
  | Some (hh, r1) =>
      match expect ":" r1 with
      | None => None
      | Some r2 =>
          match digits 2 0 r2 with
          | None => None
          | Some (mi, r3) =>
              match r3 with
              | [] => Some ((hh * 3600 + mi * 60) * us_per_second)
              | _ =>
                  match expect ":" r3 with
                  | None => None
                  | Some r4 =>
                      match digits 2 0 r4 with
                      | None => None
                      | Some (ss, r5) =>
                          let secs := hh * 3600 + mi * 60 + ss in
                          match r5 with
                          | [] => Some (secs * us_per_second)
                          | _ =>
                              match expect "." r5 with
                              | None => None
                              | Some r6 =>
                                  match digits 6 0 r6 with
                                  | Some (us, []) =>
                                      Some (secs * us_per_second + us)
                                  | _ => None
                                  end
                              end
                          end
                      end
                  end
              end
          end
      end
  end.

(** The offset of [timezone(timedelta)] lies strictly between -24h and
    24h. *)
Definition tz (l : list ascii) : option (option Z) :=
  match l with
  | [] => Some None
  | c :: t =>
      if Ascii.eqb c "+" || Ascii.eqb c "-" then
        match offset_body t with
        | Some off =>
            if off <? us_per_day
            then Some (Some (if Ascii.eqb c "-" then - off else off))
            else None
        | None => None
        end
      else None
  end.

(** [datetime.fromisoformat]: the strings of the form
    [YYYY-MM-DD[*HH[:MM[:SS[.fff[fff]]]][+HH:MM[:SS[.ffffff]]]]], where
    [*] is any one character; [None] stands for ValueError. *)
Definition fromisoformat (s : string) : option datetime :=
  match digits 4 0 (chars s) with
  | None => None
  | Some (y, r1) =>
  match expect "-" r1 with
  | None => None
  | Some r2 =>
  match digits 2 0 r2 with
  | None => None
  | Some (m, r3) =>
  match expect "-" r3 with
  | None => None
  | Some r4 =>
  match digits 2 0 r4 with
  | None => None
  | Some (d, r5) =>
      if negb ((1 <=? y) && (1 <=? m) && (m <=? 12) && (1 <=? d)
               && (d <=? days_in_month y m)) then None else
      let midnight := (ordinal y m d - 1) * us_per_day in
      match r5 with
      | [] => Some (mk_datetime midnight None)
      | _ :: r6 =>
          match time_of_day r6 with
          | None => None
          | Some (t, r7) =>
              match tz r7 with
              | None => None
              | Some off => Some (mk_datetime (midnight + t) off)
              end
          end
      end
  end end end end end.

(** [(a - b)]: the difference in microseconds; [None] stands for the
    TypeError raised when one operand is naive and the other aware. *)
Definition sub (a b : datetime) : option Z :=
  match utcoffset a, utcoffset b with
  | None, None => Some (wall a - wall b)
  | Some oa, Some ob => Some ((wall a - oa) - (wall b - ob))
  | _, _ => None
  end.

(** [timedelta.days]: a timedelta is normalised so that its seconds and
    microseconds are not negative. *)
Definition days (delta : Z) : Z := delta / us_per_day.

(** [a > b] between a datetime and a naive wall-clock reading. *)
Definition gt_naive (a : datetime) (b_wall : Z) : option bool :=
  match utcoffset a with
  | None => Some (b_wall <? wall a)
  | Some _ => None
  end.

End Datetime.

(** ** [json.dumps(obj, sort_keys=True)] *)

Module Json.
Import PyStr.

Definition hex_digit (n : Z) : ascii :=
  ascii_of_N (Z.to_N (if n <? 10 then 48 + n else 87 + n)).

Definition dquote : ascii := "034"%char.
Definition backslash : ascii := "092"%char.

(** One character of a string under [ensure_ascii=True]. *)
Definition escape_char (c : ascii) : list ascii :=
  let n := Z.of_N (code c) in
  if Ascii.eqb c dquote then [backslash; dquote]
  else if Ascii.eqb c backslash then [backslash; backslash]
  else if n =? 10 then [backslash; "n"%char]
  else if n =? 13 then [backslash; "r"%char]
  else if n =? 9 then [backslash; "t"%char]
  else if n =? 8 then [backslash; "b"%char]
  else if n =? 12 then [backslash; "f"%char]
  else if (32 <=? n) && (n <=? 126) then [c]
  else [backslash; "u"%char; "0"%char; "0"%char;
        hex_digit (n / 16); hex_digit (n mod 16)].

Definition quote (s : string) : string :=
  str ((dquote :: flat_map escape_char (chars s)) ++ [dquote]).

(** [sorted] on the items of a dict: insertion into a list kept in
    ascending key order (keys are compared as str, by code point). *)
Fixpoint insert_item (kv : string * string) (l : list (string * string))
    : list (string * string) :=
  match l with
  | [] => [kv]
  | h :: t =>
      if String.leb (fst kv) (fst h) then kv :: l else h :: insert_item kv t
  end.

Definition sort_items (l : list (string * string)) : list (string * string) :=
  fold_right insert_item [] l.

Definition render_item (kv : string * string) : string :=
  (quote (fst kv) ++ ": " ++ snd kv)%string.

(** The members of a dict are rendered, then put in key order; the order
    depends on the keys alone. *)
Fixpoint dumps (v : value) : string :=
  match v with
  | VNone => "null"
  | VBool true => "true"
  | VBool false => "false"
  | VInt n => of_Z n
  | VStr s => quote s
  | VList l => ("[" ++ join ", " (map dumps l) ++ "]")%string
  | VDict d =>
      ("{" ++ join ", "
         (map render_item
            (sort_items (map (fun kv => (fst kv, dumps (snd kv))) d)))
       ++ "}")%string
  end.

End Json.

(** ** [hashlib.md5(data).hexdigest()] *)

Module Md5.
Import PyStr.

Definition w32 (x : Z) : Z := Z.land x 0xffffffff.

Definition rotl (x c : Z) : Z :=
  w32 (Z.lor (Z.shiftl x c) (Z.shiftr x (32 - c))).

Definition not32 (x : Z) : Z := Z.lxor x 0xffffffff.

Definition shifts : list Z :=
  [7; 12; 17; 22; 7; 12; 17; 22; 7; 12; 17; 22; 7; 12; 17; 22;
   5; 9; 14; 20; 5; 9; 14; 20; 5; 9; 14; 20; 5; 9; 14; 20;
   4; 11; 16; 23; 4; 11; 16; 23; 4; 11; 16; 23; 4; 11; 16; 23;
   6; 10; 15; 21; 6; 10; 15; 21; 6; 10; 15; 21; 6; 10; 15; 21].

Definition sines : list Z :=
  [0xd76aa478; 0xe8c7b756; 0x242070db; 0xc1bdceee;
   0xf57c0faf; 0x4787c62a; 0xa8304613; 0xfd469501;
   0x698098d8; 0x8b44f7af; 0xffff5bb1; 0x895cd7be;
   0x6b901122; 0xfd987193; 0xa679438e; 0x49b40821;
   0xf61e2562; 0xc040b340; 0x265e5a51; 0xe9b6c7aa;
   0xd62f105d; 0x02441453; 0xd8a1e681; 0xe7d3fbc8;
   0x21e1cde6; 0xc33707d6; 0xf4d50d87; 0x455a14ed;
   0xa9e3e905; 0xfcefa3f8; 0x676f02d9; 0x8d2a4c8a;
   0xfffa3942; 0x8771f681; 0x6d9d6122; 0xfde5380c;
   0xa4beea44; 0x4bdecfa9; 0xf6bb4b60; 0xbebfbc70;
   0x289b7ec6; 0xeaa127fa; 0xd4ef3085; 0x04881d05;
   0xd9d4d039; 0xe6db99e5; 0x1fa27cf8; 0xc4ac5665;
   0xf4292244; 0x432aff97; 0xab9423a7; 0xfc93a039;
   0x655b59c3; 0x8f0ccc92; 0xffeff47d; 0x85845dd1;
   0x6fa87e4f; 0xfe2ce6e0; 0xa3014314; 0x4e0811a1;
   0xf7537e82; 0xbd3af235; 0x2ad7d2bb; 0xeb86d391].

Definition state : Type := (Z * Z * Z * Z)%type.

Definition init : state := (0x67452301, 0xefcdab89, 0x98badcfe, 0x10325476).

Definition at_ (l : list Z) (i : Z) : Z := nth (Z.to_nat i) l 0.

(** One of the 64 operations on the words [m] of a block. *)
Definition step (m : list Z) (st : state) (i : Z) : state :=
  let '(a, b, c, d) := st in
  let '(f, g) :=
    if i <? 16 then (Z.lor (Z.land b c) (Z.land (not32 b) d), i)
    else if i <? 32 then
      (Z.lor (Z.land d b) (Z.land (not32 d) c), (5 * i + 1) mod 16)
    else if i <? 48 then (Z.lxor b (Z.lxor c d), (3 * i + 5) mod 16)
    else (Z.lxor c (Z.lor b (not32 d)), (7 * i) mod 16) in
  let f' := w32 (f + a + at_ sines i + at_ m g) in
  (d, w32 (b + rotl f' (at_ shifts i)), b, c).

Definition indices : list Z := map Z.of_nat (seq 0 64).

Definition compress (st : state) (m : list Z) : state :=
  let '(a0, b0, c0, d0) := st in
  let '(a, b, c, d) := fold_left (step m) indices st in
  (w32 (a0 + a), w32 (b0 + b), w32 (c0 + c), w32 (d0 + d)).

(** Little-endian bytes of a word, and back. *)
Definition le_bytes (n : nat) (x : Z) : list Z :=
  map (fun k => Z.land (Z.shiftr x (8 * Z.of_nat k)) 255) (seq 0 n).

Fixpoint le_word (bytes : list Z) : Z :=
  match bytes with
  | [] => 0
  | b :: t => b + 256 * le_word t
  end.

(** A list cut into consecutive pieces of [n] elements. *)
Fixpoint pieces {A : Type} (n : nat) (l : list A) (fuel : nat) : list (list A) :=
  match fuel, l with
  | _, [] => []
  | O, _ => []
  | S fuel', _ => firstn n l :: pieces n (skipn n l) fuel'
  end.

(** The message followed by the bit 1, zeros up to 56 modulo 64 bytes,
    and its length in bits as 64 bits. *)
Definition pad (msg : list Z) : list Z :=
  let len := Z.of_nat (List.length msg) in
  let zeros := Z.to_nat ((55 - len) mod 64) in
  msg ++ [128] ++ repeat 0 zeros ++ le_bytes 8 (Z.land (8 * len) 0xffffffffffffffff).

Definition digest (msg : list Z) : list Z :=
  let padded := pad msg in
  let blocks := pieces 64 padded (List.length padded) in
  let '(a, b, c, d) :=
    fold_left (fun st blk => compress st (map le_word (pieces 4 blk 16)))
      blocks init in
  le_bytes 4 a ++ le_bytes 4 b ++ le_bytes 4 c ++ le_bytes 4 d.

Definition hex_byte (b : Z) : list ascii :=
  [Json.hex_digit (b / 16); Json.hex_digit (b mod 16)].

(** [hashlib.md5(s.encode()).hexdigest()] for a str of ASCII characters,
    whose UTF-8 encoding is the sequence of its code points. *)
Definition hexdigest (s : string) : string :=
  str (flat_map hex_byte (digest (map (fun c => Z.of_N (code c)) (chars s)))).

End Md5.

(** ** Operations on values of unknown type *)

Module Dyn.
Import PyStr.

(** The receiver of a str method such as [lower], [replace] or [split]. *)
Definition str_method (v : value) : result string :=
  match v with
  | VStr s => Ok s
  | _ => Raise AttributeError
  end.

(** [v.get(k, default)], a method of dict alone. *)
Definition dict_get (k : string) (default : value) (v : value) : result value :=
  match v with
  | VDict d => Ok (Dict.get_default k default d)
  | _ => Raise AttributeError
  end.

(** [v[:n]]; on a dict the slice is an unhashable key. *)
Definition slice (n : nat) (v : value) : result value :=
  match v with
  | VStr s => Ok (VStr (take n s))
  | VList l => Ok (VList (firstn n l))
  | _ => Raise TypeError
  end.

(** [len(v)] *)
Definition len (v : value) : result Z :=
  match v with
  | VStr s => Ok (Z.of_nat (String.length s))
  | VList l => Ok (Z.of_nat (List.length l))
  | VDict d => Ok (Z.of_nat (List.length d))
  | _ => Raise TypeError
  end.

(** The elements [for x in v] visits. *)
Definition iter (v : value) : result (list value) :=
  match v with
  | VList l => Ok l
  | VStr s => Ok (map (fun c => VStr (String c "")) (chars s))
  | VDict d => Ok (map (fun kv => VStr (fst kv)) d)
  | _ => Raise TypeError
  end.

(** [sep.join(v)]: every element must be a str. *)
Fixpoint all_str (l : list value) : result (list string) :=
  match l with
  | [] => Ok []
  | VStr s :: t => r <- all_str t ;; Ok (s :: r)
  | _ :: _ => Raise TypeError
  end.

Definition join_values (sep : string) (v : value) : result string :=
  l <- iter v ;; parts <- all_str l ;; Ok (join sep parts).

(** Keys of a dict must be hashable. *)
Definition hashable (v : value) : bool :=
  match v with
  | VList _ | VDict _ => false
  | _ => true
  end.

(** [a == b] between hashable values: bool is a subtype of int. *)
Definition key_eqb (a b : value) : bool :=
  match a, b with
  | VNone, VNone => true
  | VStr s, VStr t => String.eqb s t
  | VBool x, VBool y => Bool.eqb x y
  | VInt x, VInt y => Z.eqb x y
  | VBool x, VInt y | VInt y, VBool x => Z.eqb (Z.b2z x) y
  | _, _ => false
  end.

End Dyn.

(** ** The enricher *)

Module Enricher.
Import PyStr Dyn.

Definition _generate_slug : string -> string := Slug._generate_slug.

(** [datetime.fromisoformat(d.replace('Z', '+00:00'))]; [None] is any
    exception (no [replace] on a value that is not a str, or ValueError). *)
Definition parse_date (d : value) : option Datetime.datetime :=
  match d with
  | VStr s => Datetime.fromisoformat (replace_char "Z" "+00:00" s)
  | _ => None
  end.

(** The body of the [try] of [_calculate_duration]. *)
Definition try_duration (start_date end_date : value) : option Z :=
  match parse_date start_date with
  | None => None
  | Some start =>
      match parse_date end_date with
      | None => None
      | Some end_ =>
          match Datetime.sub end_ start with
          | None => None
          | Some delta => Some (Datetime.days delta)
          end
      end
  end.

Definition _calculate_duration (start_date end_date : value) : Z :=
  match try_duration start_date end_date with
  | Some n => n
  | None => 0
  end.

Definition _generate_content_hash (project : record) : string :=
  Md5.hexdigest (Json.dumps (VDict project)).

Definition clamp_minutes (n : Z) : Z := Z.min (Z.max (n / 200) 1) 10.

Definition _generate_seo_metadata (project : record) : result value :=
  meta <- slice 160 (Dict.get_default "shortDescription" (VStr "") project) ;;
  techs <- slice 5 (Dict.get_default "technologies" (VList []) project) ;;
  keywords <- join_values ", " techs ;;
  overview <- dict_get "overview" (VStr "")
                (Dict.get_default "content" (VDict []) project) ;;
  n <- len overview ;;
  Ok (VDict [("meta_description", meta);
             ("keywords", VStr keywords);
             ("reading_time", VStr (of_Z (clamp_minutes n)))]).

(** The loop of [_get_nested_value]: [None] is the early [return None]. *)
Fixpoint walk (keys : list string) (current : value) : option value :=
  match keys with
  | [] => Some current
  | key :: rest =>
      match current with
      | VDict d =>
          match Dict.get key d with
          | Some v => walk rest v
          | None => None
          end
      | _ => None
      end
  end.

Definition _get_nested_value (obj : record) (path : string) : value :=
  match walk (split "." path) (VDict obj) with
  | Some current => if truthy current then current else VNone
  | None => VNone
  end.

Definition checks : list (string * Z) :=
  [("title", 10); ("shortDescription", 15); ("technologies", 10);
   ("content.overview", 20); ("content.challenge", 10);
   ("content.solution", 15); ("startDate", 5); ("endDate", 5);
   ("images", 10)].

Definition score_of (project : record) : Z :=
  fold_left
    (fun score check =>
       if truthy (_get_nested_value project (fst check))
       then score + snd check else score)
    checks 0.

(** [min(score, 100.0)] is its first argument unless [100.0 < score].
    The float of that case is written [VInt 100]; the weights add up to
    100, so the case does not arise. *)
Definition _calculate_data_quality_score (project : record) : value :=
  let score := score_of project in
  if 100 <? score then VInt 100 else VInt score.

Definition newline : string := String "010"%char "".

Definition _format_description (description : value) : result string :=
  if negb (truthy description) then Ok ""
  else
    s <- str_method description ;;
    let sentences := split ". " s in
    if (1 <? Z.of_nat (List.length sentences))
    then Ok (join ". " (removelast sentences) ++ "." ++ newline ++ newline
             ++ last sentences "" ++ ".")%string
    else Ok s.

Definition _enrich_project_data (project : record) : result record :=
  let enriched := project in
  enriched <-
    (if negb (Dict.mem "slug" enriched)
     then title <- Dict.getitem "title" project ;;
          t <- str_method title ;;
          Ok (Dict.set "slug" (VStr (_generate_slug t)) enriched)
     else Ok enriched) ;;
  let enriched :=
    match Dict.get "startDate" project, Dict.get "endDate" project with
    | Some start_date, Some end_date =>
        Dict.set "duration_days"
          (VInt (_calculate_duration start_date end_date)) enriched
    | _, _ => enriched
    end in
  let enriched :=
    Dict.set "content_hash" (VStr (_generate_content_hash project)) enriched in
  seo <- _generate_seo_metadata project ;;
  let enriched := Dict.set "seo_metadata" seo enriched in
  let enriched :=
    Dict.set "data_quality_score" (_calculate_data_quality_score project)
      enriched in
  formatted <-
    _format_description (Dict.get_default "shortDescription" (VStr "") project) ;;
  Ok (Dict.set "formatted_description" (VStr formatted) enriched).

End Enricher.

(** ** The aggregator and the insight generator *)

Module Aggregator.
Import PyStr Dyn Enricher.

(** A distribution: a dict from hashable labels to counts. *)
Definition counter : Type := list (value * Z).

Fixpoint counter_get (k : value) (default : Z) (c : counter) : Z :=
  match c with
  | [] => default
  | (k', n) :: t => if key_eqb k k' then n else counter_get k default t
  end.

Fixpoint counter_set (k : value) (n : Z) (c : counter) : counter :=
  match c with
  | [] => [(k, n)]
  | (k', n') :: t =>
      if key_eqb k k' then (k', n) :: t else (k', n') :: counter_set k n t
  end.

(** [c[k] = c.get(k, 0) + 1] *)
Definition count (k : value) (c : counter) : result counter :=
  if hashable k then Ok (counter_set k (counter_get k 0 c + 1) c)
  else Raise TypeError.

Fixpoint count_all (ks : list value) (c : counter) : result counter :=
  match ks with
  | [] => Ok c
  | k :: rest => c' <- count k c ;; count_all rest c'
  end.

(** The values of the [insights] dict. [IRate c t] is the float
    [c / t * 100] and [IRounded s n] the float [round(s / n, 1)]. *)
Inductive insight : Type :=
| INameCount (name : value) (count : Z)
| IInt (n : Z)
| IRate (completed total : Z)
| IRounded (sum n : Z).

(** The [analytics] dict of [transform]: its keys are those of the dict
    literal, and [insights] once it has been assigned. *)
Record Analytics : Type := mk_analytics {
  total_projects : Z;
  categories : counter;
  technologies : counter;
  status_distribution : counter;
  recent_projects : list record;
  featured_projects : list record;
  processing_timestamp : string;
  data_quality_metrics : record;
  insights : option (list (string * insight))
}.

(** What a key of [analytics] holds. *)
Inductive entry : Type :=
| EValue (v : value)
| ECounter (c : counter)
| EInsights (i : list (string * insight)).

Definition analytics_items (a : Analytics) : list (string * entry) :=
  [("total_projects", EValue (VInt (total_projects a)));
   ("categories", ECounter (categories a));
   ("technologies", ECounter (technologies a));
   ("status_distribution", ECounter (status_distribution a));
   ("recent_projects", EValue (VList (map VDict (recent_projects a))));
   ("featured_projects", EValue (VList (map VDict (featured_projects a))));
   ("processing_timestamp", EValue (VStr (processing_timestamp a)));
   ("data_quality_metrics", EValue (VDict (data_quality_metrics a)))]
  ++ match insights a with
     | Some i => [("insights", EInsights i)]
     | None => []
     end.

Definition iter_entry (e : entry) : result (list value) :=
  match e with
  | EValue v => iter v
  | ECounter c => Ok (map fst c)
  | EInsights i => Ok (map (fun kv => VStr (fst kv)) i)
  end.

Definition days_180 : Z := 180 * Datetime.us_per_day.

(** [now] is the reading of [datetime.now()]. Every exception ends in
    [return False]: a date that is not a str or does not parse, a
    [now - timedelta(days=180)] before the first representable datetime,
    and the comparison of an aware date with the naive bound. *)
Definition _is_recent_project (now : Z) (project : record) : bool :=
  let end_date :=
    Dict.get_default "endDate"
      (Dict.get_default "startDate" (VStr "") project) project in
  if negb (truthy end_date) then false
  else
    match parse_date end_date with
    | None => false
    | Some project_date =>
        let six_months_ago := now - days_180 in
        if six_months_ago <? 0 then false
        else
          match Datetime.gt_naive project_date six_months_ago with
          | Some b => b
          | None => false
          end
    end.

Definition _update_analytics (now : Z) (analytics : Analytics)
    (project : record) : result Analytics :=
  let category := Dict.get_default "category" (VStr "uncategorized") project in
  cats <- count category (categories analytics) ;;
  techs <- iter (Dict.get_default "technologies" (VList []) project) ;;
  tech_counts <- count_all techs (technologies analytics) ;;
  let status := Dict.get_default "status" (VStr "unknown") project in
  statuses <- count status (status_distribution analytics) ;;
  recent <-
    (if _is_recent_project now project
     then id <- Dict.getitem "id" project ;;
          title <- Dict.getitem "title" project ;;
          Ok (recent_projects analytics
              ++ [[("id", id); ("title", title);
                   ("category", Dict.get_default "category" (VStr "") project);
                   ("startDate",
                    Dict.get_default "startDate" (VStr "") project)]])
     else Ok (recent_projects analytics)) ;;
  featured <-
    (if truthy (Dict.get_default "featured" (VBool false) project)
     then id <- Dict.getitem "id" project ;;
          title <- Dict.getitem "title" project ;;
          top <- slice 3 (Dict.get_default "technologies" (VList []) project) ;;
          Ok (featured_projects analytics
              ++ [[("id", id); ("title", title);
                   ("category", Dict.get_default "category" (VStr "") project);
                   ("technologies", top)]])
     else Ok (featured_projects analytics)) ;;
  Ok (mk_analytics (total_projects analytics) cats tech_counts statuses
        recent featured (processing_timestamp analytics)
        (data_quality_metrics analytics) (insights analytics)).

(** [max(c.items(), key=lambda x: x[1])]: the first item whose count is
    the largest. *)
Fixpoint max_by_count (best : value * Z) (rest : counter) : value * Z :=
  match rest with
  | [] => best
  | item :: t =>
      if snd best <? snd item then max_by_count item t
      else max_by_count best t
  end.

Definition most (c : counter) : option insight :=
  match c with
  | [] => None
  | first :: t =>
      let m := max_by_count first t in Some (INameCount (fst m) (snd m))
  end.

(** [[p for p in ps if p.get('status') == 'completed'
      and 'duration_days' in p]] *)
Fixpoint completed_with_duration (ps : list value) : result (list record) :=
  match ps with
  | [] => Ok []
  | p :: rest =>
      match p with
      | VDict d =>
          tail <- completed_with_duration rest ;;
          match Dict.get "status" d with
          | Some (VStr s) =>
              if (String.eqb s "completed" && Dict.mem "duration_days" d)%bool
              then Ok (d :: tail) else Ok tail
          | _ => Ok tail
          end
      | _ => Raise AttributeError
      end
  end.

(** [sum(p['duration_days'] for p in ps)] *)
Fixpoint sum_durations (ps : list record) : result Z :=
  match ps with
  | [] => Ok 0
  | p :: rest =>
      d <- Dict.getitem "duration_days" p ;;
      n <- match d with
           | VInt n => Ok n
           | VBool b => Ok (Z.b2z b)
           | _ => Raise TypeError
           end ;;
      s <- sum_durations rest ;;
      Ok (n + s)
  end.

Definition set_some (k : string) (o : option insight)
    (d : list (string * insight)) : list (string * insight) :=
  match o with
  | Some i => Dict.set k i d
  | None => d
  end.

Definition _generate_insights (analytics : Analytics)
    : result (list (string * insight)) :=
  let insights := [] in
  let insights :=
    set_some "most_used_technology" (most (technologies analytics)) insights in
  let insights :=
    set_some "most_common_category" (most (categories analytics)) insights in
  let total := total_projects analytics in
  let completed_projects :=
    counter_get (VStr "completed") 0 (status_distribution analytics) in
  let insights :=
    Dict.set "completion_rate"
      (if 0 <? total then IRate completed_projects total else IInt 0)
      insights in
  candidates <-
    iter_entry
      (Dict.get_default "projects" (EValue (VList []))
         (analytics_items analytics)) ;;
  completed_projects_data <- completed_with_duration candidates ;;
  match completed_projects_data with
  | [] => Ok insights
  | _ =>
      total_days <- sum_durations completed_projects_data ;;
      Ok (Dict.set "average_project_duration_days"
            (IRounded total_days
               (Z.of_nat (List.length completed_projects_data)))
            insights)
  end.

Record Transformed : Type := mk_transformed {
  projects : list record;
  analytics : Analytics
}.

(** The loop of [transform]; [clock i] is what [datetime.now()] reads
    while record [i] is folded. *)
Fixpoint fold_projects (clock : nat -> Z) (i : nat) (todo : list record)
    (done : list record) (acc : Analytics)
    : result (list record * Analytics) :=
  match todo with
  | [] => Ok (done, acc)
  | project :: rest =>
      enriched_project <- _enrich_project_data project ;;
      acc' <- _update_analytics (clock i) acc enriched_project ;;
      fold_projects clock (S i) rest (done ++ [enriched_project]) acc'
  end.

(** [stamp] is [datetime.now().isoformat()] at the start of the run. *)
Definition transform (stamp : string) (clock : nat -> Z)
    (input : list record) : result Transformed :=
  let start :=
    mk_analytics (Z.of_nat (List.length input)) [] [] [] [] [] stamp [] None in
  folded <- fold_projects clock 0 input [] start ;;
  let '(transformed_projects, a) := folded in
  i <- _generate_insights a ;;
  Ok (mk_transformed transformed_projects
        (mk_analytics (total_projects a) (categories a) (technologies a)
           (status_distribution a) (recent_projects a) (featured_projects a)
           (processing_timestamp a) (data_quality_metrics a) (Some i))).

End Aggregator.

(** ** Notions the properties are stated with *)

Module Tree.

(** Keys are pairwise distinct in every dict of the tree. *)
Inductive wf : value -> Prop :=
| wf_none : wf VNone
| wf_bool b : wf (VBool b)
| wf_int n : wf (VInt n)
| wf_str s : wf (VStr s)
| wf_list l : (forall v, In v l -> wf v) -> wf (VList l)
| wf_dict d :
    NoDup (map fst d) -> (forall k v, In (k, v) d -> wf v) -> wf (VDict d).

(** Equality as key-value trees: the same scalar, lists with the same
    trees at every index, dicts with the same keys and the same tree
    under every key, whatever the order of the members. *)
Inductive same : value -> value -> Prop :=
| same_none : same VNone VNone
| same_bool b : same (VBool b) (VBool b)
| same_int n : same (VInt n) (VInt n)
| same_str s : same (VStr s) (VStr s)
| same_list l1 l2 :
    List.length l1 = List.length l2 ->
    (forall i v1 v2,
        nth_error l1 i = Some v1 -> nth_error l2 i = Some v2 -> same v1 v2) ->
    same (VList l1) (VList l2)
| same_dict d1 d2 :
    (forall k, Dict.mem k d1 = Dict.mem k d2) ->
    (forall k v1 v2,
        Dict.get k d1 = Some v1 -> Dict.get k d2 = Some v2 -> same v1 v2) ->
    same (VDict d1) (VDict d2).

(** The members of a dict as [Json.dumps] renders them. *)
Definition rendered (d : list (string * value)) : list (string * string) :=
  map (fun kv => (fst kv, Json.dumps (snd kv))) d.

End Tree.

Module Measure.
Import Aggregator.

(** [sum(c.values())] *)
Definition sum_values (c : counter) : Z :=
  fold_right (fun kv s => snd kv + s) 0 c.

End Measure.

Module Scenario.

(** 2024-06-30T00:00:00 as a reading of [datetime.now()]. *)
Definition run_time : Z := 63855302400000000.

Definition completed_project : record :=
  [("id", VInt 1); ("title", VStr "A"); ("status", VStr "completed");
   ("startDate", VStr "2024-06-10"); ("endDate", VStr "2024-06-20")].

Definition cool_app : record :=
  [("id", VInt 1); ("title", VStr "My Cool App!");
   ("shortDescription", VStr "It works. It scales. It ships.")].

(** End twelve hours before start. *)
Definition reversed_half_day : record :=
  [("id", VInt 1); ("title", VStr "A");
   ("startDate", VStr "2024-01-02T00:00:00");
   ("endDate", VStr "2024-01-01T12:00:00")].

(** A naive start and an end ten days later with a UTC designator. *)
Definition mixed_dates : record :=
  [("id", VInt 1); ("title", VStr "A");
   ("startDate", VStr "2024-01-01T00:00:00");
   ("endDate", VStr "2024-01-11T00:00:00Z")].

Definition bare : record := [("id", VInt 1); ("title", VStr "A")].

Definition numeric_overview : record :=
  [("id", VInt 1); ("title", VStr "A");
   ("content", VDict [("overview", VInt 5)])].

(** A project that ended ten days before [run_time], and the
    same date written with a UTC designator. *)
Definition ended_recently : record :=
  [("id", VInt 4); ("title", VStr "D"); ("endDate", VStr "2024-06-20T00:00:00")].

Definition ended_recently_utc : record :=
  [("id", VInt 2); ("title", VStr "B"); ("endDate", VStr "2024-06-20T00:00:00Z")].

(** 200 days before [run_time]. *)
Definition ended_long_ago : record :=
  [("id", VInt 3); ("title", VStr "C"); ("endDate", VStr "2023-12-13T00:00:00")].

(** One record written with two key orders, at both levels. *)
Definition ordered : record :=
  [("id", VInt 7); ("title", VStr "Atlas");
   ("content", VDict [("overview", VStr "Maps"); ("challenge", VNone)])].

Definition shuffled : record :=
  [("content", VDict [("challenge", VNone); ("overview", VStr "Maps")]);
   ("title", VStr "Atlas"); ("id", VInt 7)].

(** A record whose slug is the empty string, and one whose slug is no
    URL-safe text; neither has a title. *)
Definition empty_slug : record := [("id", VInt 5); ("slug", VStr "")].

Definition odd_slug : record := [("id", VInt 6); ("slug", VStr "Not a Slug/?")].

Definition untitled : record := [("id", VInt 9); ("status", VStr "draft")].

End Scenario.

Module EnrichSteps.
Import Enricher.

(** The steps of [_enrich_project_data]. *)
Definition with_slug (project : record) (slug : value) : record :=
  if Dict.mem "slug" project then project else Dict.set "slug" slug project.

Definition with_duration (project enriched : record) : record :=
  match Dict.get "startDate" project, Dict.get "endDate" project with
  | Some s, Some e =>
      Dict.set "duration_days" (VInt (_calculate_duration s e)) enriched
  | _, _ => enriched
  end.

(** The keys [_enrich_project_data] assigns. *)
Definition written : list string :=
  ["slug"; "duration_days"; "content_hash"; "seo_metadata";
   "data_quality_score"; "formatted_description"].

End EnrichSteps.

Module Schema.

Definition is_str (v : value) : bool :=
  match v with VStr _ => true | _ => false end.

Definition is_str_list (v : value) : bool :=
  match v with VList l => forallb is_str l | _ => false end.

(** A field, when present, has the stated type. *)
Definition field (k : string) (ok : value -> bool) (p : record) : bool :=
  match Dict.get k p with Some v => ok v | None => true end.

Definition is_content (v : value) : bool :=
  match v with VDict d => field "overview" is_str d | _ => false end.

(** The field types of a ProjectRecord that the transform stage relies
    on: title, shortDescription, category and status are strings,
    technologies is a sequence of strings, content is a mapping whose
    overview is a string. *)
Definition well_typed (p : record) : bool :=
  field "title" is_str p && field "shortDescription" is_str p
  && field "category" is_str p && field "technologies" is_str_list p
  && field "status" is_str p && field "content" is_content p.

Definition has_id_and_title (p : record) : bool :=
  Dict.mem "id" p && Dict.mem "title" p.

Definition featured_test (p : record) : bool :=
  truthy (Dict.get_default "featured" (VBool false) p).

(** A record the transform stage folds without an exception. *)
Definition good (p : record) : Prop :=
  well_typed p = true /\ has_id_and_title p = true.

End Schema.

Module Recency.

(** The date the recency test reads: endDate, else startDate, else the
    empty str. *)
Definition effective_date (p : record) : value :=
  Dict.get_default "endDate" (Dict.get_default "startDate" (VStr "") p) p.

End Recency.

Module Folds.
Import Dyn Enricher Aggregator.

(** The label a record is counted under. *)
Definition category_of (p : record) : value :=
  Dict.get_default "category" (VStr "uncategorized") p.

Definition status_of (p : record) : value :=
  Dict.get_default "status" (VStr "unknown") p.

(** The technologies the loop of [_update_analytics] visits. *)
Definition techs_of (p : record) : list value :=
  match iter (Dict.get_default "technologies" (VList []) p) with
  | Ok l => l
  | Raise _ => []
  end.

(** How often a label occurs in a list, up to [==]. *)
Definition occurrences (k : value) (l : list value) : Z :=
  Z.of_nat (List.length (filter (key_eqb k) l)).

(** The input records that pass the recent test, record [i] being
    tested at the clock reading [clock i]. *)
Fixpoint recent_inputs (clock : nat -> Z) (i : nat) (input : list record)
    : list record :=
  match input with
  | [] => []
  | p :: rest =>
      (if _is_recent_project (clock i) p then [p] else [])
      ++ recent_inputs clock (S i) rest
  end.

(** A completed run of the loop of [transform] from record [i] on:
    the inputs, their enrichments and the accumulator before and after. *)
Inductive run (clock : nat -> Z)
    : nat -> list record -> list record -> Analytics -> Analytics -> Prop :=
| run_nil i a : run clock i [] [] a a
| run_cons i p rest e es a a1 a' :
    _enrich_project_data p = Ok e ->
    _update_analytics (clock i) a e = Ok a1 ->
    run clock (S i) rest es a1 a' ->
    run clock i (p :: rest) (e :: es) a a'.

(** [analytics] before [insights] is assigned. *)
Definition start (stamp : string) (n : nat) : Analytics :=
  mk_analytics (Z.of_nat n) [] [] [] [] [] stamp [] None.

End Folds.

Module Summaries.
Import Dyn Aggregator.

(** A summary in [recent_projects] describes the record [p]. *)
Definition recent_summary_of (p s : record) : Prop :=
  exists id title,
    Dict.get "id" p = Some id /\ Dict.get "title" p = Some title
    /\ s = [("id", id); ("title", title);
            ("category", Dict.get_default "category" (VStr "") p);
            ("startDate", Dict.get_default "startDate" (VStr "") p)].

(** A summary in [featured_projects] describes the record [p]: its
    technologies are the first three of the record. *)
Definition featured_summary_of (p s : record) : Prop :=
  exists id title top,
    Dict.get "id" p = Some id /\ Dict.get "title" p = Some title
    /\ slice 3 (Dict.get_default "technologies" (VList []) p) = Ok top
    /\ s = [("id", id); ("title", title);
            ("category", Dict.get_default "category" (VStr "") p);
            ("technologies", top)].

End Summaries.

Module Maxima.
Import Aggregator.

(** [(k, n)] is the first entry of [c] with the largest count. *)
Definition first_maximum (c : counter) (k : value) (n : Z) : Prop :=
  exists before after,
    c = before ++ (k, n) :: after
    /\ Forall (fun x => snd x < n) before
    /\ Forall (fun x => snd x <= n) after.

End Maxima.

Module Shapes.
Import PyStr.

(** A lower-case hexadecimal digit. *)
Definition is_hex (c : ascii) : bool :=
  in_range 48 57 c || in_range 97 102 c.

End Shapes.

(** ** The renderer *)

Module Renderer.
Import PyStr Dyn.

(** The pieces of a text between its double quotes. *)
Definition q (pieces : list string) : string :=
  String.concat (String Json.dquote "") pieces.

(** [str.isprintable] on one character. *)
Definition is_printable (c : ascii) : bool :=
  in_range 32 126 c || (in_range 161 255 c && negb (N.eqb (code c) 173)).

Definition contains (c : ascii) (s : string) : bool :=
  existsb (Ascii.eqb c) (chars s).

(** One character of [repr(s)] inside the quote [quote]. *)
Definition repr_char (quote c : ascii) : list ascii :=
  let n := Z.of_N (code c) in
  if Ascii.eqb c quote || Ascii.eqb c Json.backslash then [Json.backslash; c]
  else if n =? 10 then [Json.backslash; "n"%char]
  else if n =? 13 then [Json.backslash; "r"%char]
  else if n =? 9 then [Json.backslash; "t"%char]
  else if is_printable c then [c]
  else [Json.backslash; "x"%char;
        Json.hex_digit (n / 16); Json.hex_digit (n mod 16)].

(** [repr(s)]: single quotes, unless the text has a single quote and no
    double quote. *)
Definition repr_str (s : string) : string :=
  let quote :=
    if contains "'" s && negb (contains Json.dquote s)
    then Json.dquote else "'"%char in
  str ((quote :: flat_map (repr_char quote) (chars s)) ++ [quote]).

Fixpoint repr (v : value) : string :=
  match v with
  | VNone => "None"
  | VBool true => "True"
  | VBool false => "False"
  | VInt n => of_Z n
  | VStr s => repr_str s
  | VList l => ("[" ++ join ", " (map repr l) ++ "]")%string
  | VDict d =>
      ("{" ++ join ", "
         (map (fun kv => (repr_str (fst kv) ++ ": " ++ repr (snd kv))%string)
            d)
       ++ "}")%string
  end.

(** A replacement field [{v}] of an f-string: [str(v)]. *)
Definition fmt (v : value) : string :=
  match v with
  | VStr s => s
  | _ => repr v
  end.

(** [''.join(f'<span class="tech-badge">{tech}</span>'
             for tech in project.get('technologies', [])[:3])] *)
Definition badge (tech : value) : string :=
  (q ["<span class="; "tech-badge"; ">"] ++ fmt tech ++ "</span>")%string.

Definition badges (project : record) : result string :=
  top <- slice 3 (Dict.get_default "technologies" (VList []) project) ;;
  techs <- iter top ;;
  Ok (join "" (map badge techs)).

(** The literal text of the card template, between its replacement
    fields. *)
Definition card_0 : string :=
  q ["
            <div class=";
     "project-card";
     " data-category=";
     ""].

Definition card_1 : string :=
  q ["";
     ">
                <div class=";
     "project-image";
     ">
                    <img src=";
     ""].

Definition card_2 : string :=
  q ["";
     "
                         alt=";
     ""].

Definition card_3 : string :=
  q ["";
     " loading=";
     "lazy";
     ">
                    <div class=";
     "project-overlay";
     ">
                        <div class=";
     "project-links";
     ">
                            <a href=";
     "project-detail.html?id="].

Definition card_4 : string :=
  q ["";
     " class=";
     "project-link";
     ">
                                <svg viewBox=";
     "0 0 24 24";
     " fill=";
     "currentColor";
     ">
                                    <path d=";
     "M12 0c-6.626 0-12 5.373-12 12 0 5.302 3.438 9.8 8.207 11.387.599.111.793-.261.793-.577v-2.234c-3.338.726-4.033-1.416-4.033-1.416-.546-1.387-1.333-1.756-1.333-1.756-1.089-.745.083-.729.083-.729 1.205.084 1.839 1.237 1.839 1.237 1.07 1.834 2.807 1.304 3.492.997.107-.775.418-1.305.762-1.604-2.665-.305-5.467-1.334-5.467-5.931 0-1.311.469-2.381 1.236-3.221-.124-.303-.535-1.524.117-3.176 0 0 1.008-.322 3.301 1.23.957-.266 1.983-.399 3.003-.404 1.02.005 2.047.138 3.006.404 2.291-1.552 3.297-1.23 3.297-1.23.653 1.653.242 2.874.118 3.176.77.84 1.235 1.911 1.235 3.221 0 4.609-2.807 5.624-5.479 5.921.43.372.823 1.102.823 2.222v3.293c0 .319.192.694.801.576 4.765-1.589 8.199-6.086 8.199-11.386 0-6.627-5.373-12-12-12z";
     "/>
                                </svg>
                            </a>
                            <a href=";
     ""].

Definition card_5 : string :=
  q ["";
     " class=";
     "project-link";
     " target=";
     "_blank";
     ">
                                <svg viewBox=";
     "0 0 24 24";
     " fill=";
     "currentColor";
     ">
                                    <path d=";
     "M21 13v10h-21v-19h12v2h-10v15h17v-8h2zm3-12h-10.988l4.035 4-6.977 7.07 2.828 2.828 6.977-7.07 4.125 4.172v-11z";
     "/>
                                </svg>
                            </a>
                        </div>
                    </div>
                </div>
                <div class=";
     "project-content";
     ">
                    <h3 class=";
     "project-title";
     ">"].

Definition card_6 : string :=
  q ["</h3>
                    <p class=";
     "project-description";
     ">
                        "].

Definition card_7 : string :=
  q ["
                    </p>
                    <div class=";
     "project-tech";
     ">
                        "].

Definition card_8 : string :=
  q ["
                    </div>
                </div>
            </div>
            "].

(** The literal text of the featured card template, between its replacement
    fields. *)
Definition featured_0 : string :=
  q ["
            <div class=";
     "featured-project-card";
     ">
                <div class=";
     "featured-project-image";
     ">
                    <img src=";
     ""].

Definition featured_1 : string :=
  q ["";
     " alt=";
     ""].

Definition featured_2 : string :=
  q ["";
     " loading=";
     "lazy";
     ">
                </div>
                <div class=";
     "featured-project-content";
     ">
                    <h3>"].

Definition featured_3 : string :=
  q ["</h3>
                    <p>"].

Definition featured_4 : string :=
  q ["</p>
                    <div class=";
     "featured-project-tech";
     ">
                        "].

Definition featured_5 : string :=
  q ["
                    </div>
                    <a href=";
     "project-detail.html?id="].

Definition featured_6 : string :=
  q ["";
     " class=";
     "btn btn-primary";
     ">Learn More</a>
                </div>
            </div>
            "].

(** The replacement fields are evaluated from left to right. *)
Definition card (project : record) : result string :=
  let category := fmt (Dict.get_default "category" (VStr "") project) in
  let thumbnail :=
    fmt (Dict.get_default "thumbnail"
           (VStr "assets/images/projects/default.jpg") project) in
  alt <- Dict.getitem "title" project ;;
  id <- Dict.getitem "id" project ;;
  let github := fmt (Dict.get_default "githubUrl" (VStr "#") project) in
  title <- Dict.getitem "title" project ;;
  let description :=
    fmt (Dict.get_default "shortDescription" (VStr "") project) in
  tech <- badges project ;;
  Ok (card_0 ++ category ++ card_1 ++ thumbnail ++ card_2 ++ fmt alt
      ++ card_3 ++ fmt id ++ card_4 ++ github ++ card_5 ++ fmt title
      ++ card_6 ++ description ++ card_7 ++ tech ++ card_8)%string.

Fixpoint each {A B : Type} (f : A -> result B) (l : list A) : result (list B) :=
  match l with
  | [] => Ok []
  | a :: t => b <- f a ;; bs <- each f t ;; Ok (b :: bs)
  end.

Definition _generate_project_cards_html (projects : list record)
    : result string :=
  html <- each card projects ;;
  Ok (join Enricher.newline html).

Definition featured_card (project : record) : result string :=
  let thumbnail := fmt (Dict.get_default "thumbnail" (VStr "") project) in
  alt <- Dict.getitem "title" project ;;
  title <- Dict.getitem "title" project ;;
  let description :=
    fmt (Dict.get_default "shortDescription" (VStr "") project) in
  tech <- badges project ;;
  id <- Dict.getitem "id" project ;;
  Ok (featured_0 ++ thumbnail ++ featured_1 ++ fmt alt ++ featured_2
      ++ fmt title ++ featured_3 ++ description ++ featured_4 ++ tech
      ++ featured_5 ++ fmt id ++ featured_6)%string.

Definition _generate_featured_projects_html (projects : list record)
    : result string :=
  match projects with
  | [] => Ok ""
  | _ =>
      cards <- each featured_card (firstn 3 projects) ;;
      Ok (join Enricher.newline
            ([q ["<div class="; "featured-projects"; ">"];
              "<h2>Featured Projects</h2>";
              q ["<div class="; "featured-grid"; ">"]]
             ++ cards ++ ["</div>"; "</div>"]))
  end.

(** The two texts [_generate_html_snippets] writes, [project_cards.html]
    and [featured_projects.html]; the directory and the files are not
    modelled. *)
Definition _generate_html_snippets (projects : list record)
    : result (string * string) :=
  project_cards_html <- _generate_project_cards_html projects ;;
  let featured_projects :=
    filter (fun p => truthy (Dict.get_default "featured" (VBool false) p))
      projects in
  featured_html <- _generate_featured_projects_html featured_projects ;;
  Ok (project_cards_html, featured_html).

(** The exception is a KeyError. *)
Definition is_key_error (e : exn) : Prop := exists k, e = KeyError k.

End Renderer.

Module Portfolio.

Definition orbit : record :=
  [("id", VInt 8); ("title", VStr "Orbit"); ("category", VStr "web");
   ("status", VStr "completed"); ("featured", VBool true);
   ("technologies",
    VList [VStr "Rocq"; VStr "OCaml"; VStr "Python"; VStr "SQL"]);
   ("shortDescription", VStr "Tracks satellites. Predicts passes.");
   ("endDate", VStr "2024-06-25")].

(** A run over three records at [Scenario.run_time]. *)
Definition input : list record :=
  [Scenario.completed_project; orbit; Scenario.ended_long_ago].

Definition clock (i : nat) : Z := Scenario.run_time.

Definition stamp : string := "2024-06-30T00:00:00".

End Portfolio.

(** ** Sentence breaks *)

Module Sentences.

(** The separator of [description.split('. ')]. *)
Definition stop : string := ". ".

(** [b] has no occurrence of the separator. *)
Definition unbroken (b : string) : Prop :=
  forall x y, b <> (x ++ stop ++ y)%string.

(** The text [_format_description] puts in place of the last separator. *)
Definition break : string := ("." ++ Enricher.newline ++ Enricher.newline)%string.

End Sentences.

(** ** Records with both keys and a field of another type *)

Module Untyped.

(** [{"id": 1, "title": null}] *)
Definition null_title : record := [("id", VInt 1); ("title", VNone)].

(** [{"id": 2, "title": "Orbit", "technologies": 7}] *)
Definition numeric_technologies : record :=
  [("id", VInt 2); ("title", VStr "Orbit"); ("technologies", VInt 7)].

End Untyped.

(** * Properties *)

Module SlugFacts.
Import PyStr Slug.

Lemma lower_char_idem (c : ascii) : lower_char (lower_char c) = lower_char c.
Proof. destruct c as [[] [] [] [] [] [] [] []]; reflexivity. Qed.

Lemma lower_char_hyphen : lower_char "-" = "-"%char.
Proof. reflexivity. Qed.

Lemma sep_of_space (c : ascii) : is_space c = true -> is_sep c = true.
Proof. unfold is_sep; intros ->; reflexivity. Qed.

Lemma sep_of_hyphen (c : ascii) : is_hyphen c = true -> is_sep c = true.
Proof. unfold is_sep; intros ->; rewrite !orb_true_r; reflexivity. Qed.

Lemma is_hyphen_eq (c : ascii) : is_hyphen c = true -> c = "-"%char.
Proof. unfold is_hyphen; apply Ascii.eqb_eq. Qed.

(** Stripping *)

Lemma lstrip_fixed (p : ascii -> bool) (l : list ascii) :
  match l with [] => True | c :: _ => p c = false end -> lstrip p l = l.
Proof. destruct l as [|c t]; simpl; [reflexivity | intros ->; reflexivity]. Qed.

Lemma lstrip_head (p : ascii -> bool) (l : list ascii) :
  match lstrip p l with [] => True | c :: _ => p c = false end.
Proof.
  induction l as [|c t IH]; simpl; [exact I|].
  destruct (p c) eqn:E; [exact IH | exact E].
Qed.

Lemma Forall_lstrip (P : ascii -> Prop) p l : Forall P l -> Forall P (lstrip p l).
Proof.
  induction 1 as [|c t Hc Ht IH]; simpl; [constructor|].
  destruct (p c); [exact IH | constructor; assumption].
Qed.

Lemma Forall_rstrip (P : ascii -> Prop) p l : Forall P l -> Forall P (rstrip p l).
Proof.
  induction 1 as [|c t Hc Ht IH]; simpl; [constructor|].
  destruct (rstrip p t) as [|d t'].
  - destruct (p c); constructor; [assumption | constructor].
  - constructor; assumption.
Qed.

Lemma rstrip_cons p c d t t' :
  rstrip p t = d :: t' -> rstrip p (c :: t) = c :: d :: t'.
Proof. simpl; intros ->; reflexivity. Qed.

Lemma rstrip_idem p l : rstrip p (rstrip p l) = rstrip p l.
Proof.
  induction l as [|c t IH]; simpl; [reflexivity|].
  destruct (rstrip p t) as [|d t'] eqn:E.
  - destruct (p c) eqn:Ec; simpl; [reflexivity | rewrite Ec; reflexivity].
  - apply rstrip_cons, IH.
Qed.

Lemma rstrip_head p l :
  match l with [] => True | c :: _ => p c = false end ->
  match rstrip p l with [] => l = [] | c :: _ => p c = false end.
Proof.
  destruct l as [|c t]; simpl; [reflexivity|].
  intros Hc. destruct (rstrip p t); [rewrite Hc|]; exact Hc.
Qed.

Lemma strip_by_idem p l : strip_by p (strip_by p l) = strip_by p l.
Proof.
  unfold strip_by.
  rewrite (lstrip_fixed p (rstrip p (lstrip p l))).
  - apply rstrip_idem.
  - pose proof (rstrip_head p (lstrip p l) (lstrip_head p l)) as H.
    destruct (rstrip p (lstrip p l)); [exact I | exact H].
Qed.

Lemma rstrip_none p l : Forall (fun c => p c = false) l -> rstrip p l = l.
Proof.
  induction 1 as [|c t Hc Ht IH]; simpl; [reflexivity|].
  rewrite IH. destruct t; [rewrite Hc|]; reflexivity.
Qed.

Lemma strip_by_none p l : Forall (fun c => p c = false) l -> strip_by p l = l.
Proof.
  intros H. unfold strip_by. rewrite lstrip_fixed.
  - apply rstrip_none, H.
  - destruct H; [exact I | assumption].
Qed.

(** Runs of separators *)

Lemma spaced_weaken prev l : spaced prev l = true -> spaced false l = true.
Proof.
  destruct l as [|c t]; simpl; [reflexivity|].
  destruct (is_hyphen c); [|trivial].
  destruct prev; simpl; [discriminate | trivial].
Qed.

Lemma sub_seps_spaced b l : spaced b (sub_seps b l) = true.
Proof.
  revert b; induction l as [|c t IH]; intros b; simpl; [reflexivity|].
  destruct (is_sep c) eqn:Es.
  - destruct b; [apply IH|]. simpl. apply IH.
  - simpl. destruct (is_hyphen c) eqn:Eh.
    + rewrite (sep_of_hyphen _ Eh) in Es. discriminate.
    + apply IH.
Qed.

Lemma spaced_lstrip l : spaced false l = true -> spaced false (lstrip is_hyphen l) = true.
Proof.
  induction l as [|c t IH]; simpl; [reflexivity|].
  destruct (is_hyphen c) eqn:Eh; simpl.
  - intros H. apply IH. apply (spaced_weaken true), H.
  - rewrite Eh. trivial.
Qed.

Lemma spaced_rstrip b l : spaced b l = true -> spaced b (rstrip is_hyphen l) = true.
Proof.
  revert b; induction l as [|c t IH]; intros b; simpl; [reflexivity|].
  intros H.
  assert (Ht : spaced (is_hyphen c) t = true).
  { destruct (is_hyphen c); [apply andb_true_iff in H; apply H | exact H]. }
  specialize (IH _ Ht).
  destruct (rstrip is_hyphen t) as [|d t'] eqn:E.
  - destruct (is_hyphen c) eqn:Eh; simpl; [reflexivity|]. rewrite Eh. reflexivity.
  - change (spaced b (c :: d :: t') = true). 
    simpl spaced at 1. destruct (is_hyphen c) eqn:Eh.
    + apply andb_true_iff in H. destruct H as [H _]. rewrite H. exact IH.
    + exact IH.
Qed.

(** Where the only separators are single hyphens, nothing is replaced. *)
Lemma sub_seps_fixed b l :
  Forall (fun c => is_sep c = true -> is_hyphen c = true) l ->
  spaced b l = true -> sub_seps false l = l /\ 
  (b = true -> match l with [] => True | c :: _ => is_sep c = false end).
Proof.
  intros Hall; revert b; induction Hall as [|c t Hc Ht IH]; intros b; simpl.
  - intros _; split; [reflexivity | trivial].
  - destruct (is_hyphen c) eqn:Eh.
    + rewrite (sep_of_hyphen _ Eh). intros H. apply andb_true_iff in H.
      destruct H as [Hb H]. destruct (IH true H) as [IH1 IH2].
      split.
      * rewrite (is_hyphen_eq _ Eh). f_equal.
        specialize (IH2 eq_refl). destruct t as [|d t']; [reflexivity|].
        simpl. rewrite IH2. simpl in IH1. rewrite IH2 in IH1. exact IH1.
      * intros ->. discriminate.
    + intros H. destruct (is_sep c) eqn:Es.
      * specialize (Hc eq_refl). discriminate.
      * destruct (IH false H) as [IH1 _]. rewrite IH1. split; trivial.
Qed.

Lemma settled_hyphen : settled "-".
Proof. repeat split. Qed.

Lemma settled_kept (c : ascii) :
  keep (lower_char c) = true -> is_sep (lower_char c) = false ->
  settled (lower_char c).
Proof.
  intros Hk Hs. repeat split.
  - apply lower_char_idem.
  - exact Hk.
  - destruct (is_space (lower_char c)) eqn:E; [|reflexivity].
    rewrite (sep_of_space _ E) in Hs. discriminate.
  - rewrite Hs. discriminate.
Qed.

Lemma Forall_sub_seps (P : ascii -> Prop) b l :
  P "-"%char -> Forall (fun c => is_sep c = false -> P c) l ->
  Forall P (sub_seps b l).
Proof.
  intros Hh Hall; revert b; induction Hall as [|c t Hc Ht IH]; intros b; simpl;
    [constructor|].
  destruct (is_sep c).
  - destruct b; [apply IH | constructor; [exact Hh | apply IH]].
  - constructor; [apply Hc; reflexivity | apply IH].
Qed.

Lemma slug_chars_settled l : Forall settled (slug_chars l).
Proof.
  unfold slug_chars, strip_by.
  apply Forall_rstrip, Forall_lstrip, Forall_sub_seps; [exact settled_hyphen|].
  unfold sub_special. apply Forall_forall. intros c Hin Hs.
  apply filter_In in Hin. destruct Hin as [Hin Hk].
  unfold strip_by in Hin.
  assert (Hm : Forall (fun c => exists c', c = lower_char c')
                 (rstrip is_space (lstrip is_space (map lower_char l)))).
  { apply Forall_rstrip, Forall_lstrip, Forall_forall. intros d Hd.
    apply in_map_iff in Hd. destruct Hd as [c' [<- _]]. exists c'; reflexivity. }
  rewrite Forall_forall in Hm. destruct (Hm _ Hin) as [c' ->].
  apply settled_kept; assumption.
Qed.

Lemma slug_chars_spaced l : spaced false (slug_chars l) = true.
Proof.
  unfold slug_chars, strip_by.
  apply spaced_rstrip, spaced_lstrip, sub_seps_spaced.
Qed.

(** A settled, spaced list without outer hyphens is left as it is. *)
Lemma slug_chars_fixed m :
  Forall settled m -> spaced false m = true -> strip_by is_hyphen m = m ->
  slug_chars m = m.
Proof.
  intros Hs Hp He. unfold slug_chars.
  assert (H1 : map lower_char m = m).
  { clear Hp He. induction Hs as [|c t Hc Ht IH]; simpl; [reflexivity|].
    destruct Hc as [-> _]. rewrite IH. reflexivity. }
  rewrite H1.
  rewrite (strip_by_none is_space m)
    by (eapply Forall_impl; [|exact Hs]; intros c Hc; apply Hc).
  assert (H3 : sub_special m = m).
  { unfold sub_special. clear Hp He H1.
    induction Hs as [|c t Hc Ht IH]; simpl; [reflexivity|].
    destruct Hc as [_ [-> _]]. rewrite IH. reflexivity. }
  rewrite H3.
  destruct (sub_seps_fixed false m) as [H4 _].
  { eapply Forall_impl; [|exact Hs]. intros c Hc; apply Hc. }
  { exact Hp. }
  rewrite H4. exact He.
Qed.

Lemma slug_chars_idem l : slug_chars (slug_chars l) = slug_chars l.
Proof.
  apply slug_chars_fixed.
  - apply slug_chars_settled.
  - apply slug_chars_spaced.
  - unfold slug_chars. apply strip_by_idem.
Qed.

End SlugFacts.

(** C7. Slug generation is idempotent: for every title, deriving the
    slug of a slug returns it unchanged. *)
Theorem generate_slug_idempotent (title : string) :
  Slug._generate_slug (Slug._generate_slug title) = Slug._generate_slug title.
Proof.
  unfold Slug._generate_slug, PyStr.str, PyStr.chars.
  rewrite list_ascii_of_string_of_list_ascii.
  rewrite SlugFacts.slug_chars_idem. reflexivity.
Qed.

Module JsonFacts.
Import PyStr Json Tree.

Lemma ascii_compare_trans a b c :
  Ascii.compare a b <> Gt -> Ascii.compare b c <> Gt ->
  Ascii.compare a c <> Gt
  /\ (Ascii.compare a c = Eq -> Ascii.compare a b = Eq /\ Ascii.compare b c = Eq).
Proof.
  unfold Ascii.compare. intros H1 H2.
  rewrite N.compare_gt_iff in *.
  rewrite !N.compare_eq_iff. lia.
Qed.

Lemma str_compare_trans a : forall b c,
  String.compare a b <> Gt -> String.compare b c <> Gt ->
  String.compare a c <> Gt.
Proof.
  induction a as [|x a IH]; intros [|y b] [|z c]; simpl; try congruence.
  intros H1 H2.
  destruct (Ascii.compare x y) eqn:Exy; try congruence;
  destruct (Ascii.compare y z) eqn:Eyz; try congruence;
  destruct (ascii_compare_trans x y z) as [Hn He]; try congruence;
  destruct (Ascii.compare x z) eqn:Exz; try congruence;
  try (destruct (He eq_refl); congruence).
  eapply IH; eassumption.
Qed.

Lemma leb_trans a b c :
  String.leb a b = true -> String.leb b c = true -> String.leb a c = true.
Proof.
  unfold String.leb. intros H1 H2.
  pose proof (str_compare_trans a b c) as H.
  destruct (String.compare a b); try discriminate;
  destruct (String.compare b c); try discriminate;
  destruct (String.compare a c); try reflexivity;
  exfalso; apply H; congruence.
Qed.

Lemma insert_item_comm a b l :
  fst a <> fst b ->
  insert_item a (insert_item b l) = insert_item b (insert_item a l).
Proof.
  intros Hne. induction l as [|h t IH]; simpl.
  - destruct (String.leb (fst a) (fst b)) eqn:Eab,
             (String.leb (fst b) (fst a)) eqn:Eba; try reflexivity.
    + elim Hne. apply String.leb_antisym; assumption.
    + destruct (String.leb_total (fst a) (fst b)); congruence.
  - destruct (String.leb (fst b) (fst h)) eqn:Ebh,
             (String.leb (fst a) (fst h)) eqn:Eah; simpl;
    rewrite ?Ebh, ?Eah;
    destruct (String.leb (fst a) (fst b)) eqn:Eab,
             (String.leb (fst b) (fst a)) eqn:Eba;
    try reflexivity;
    try (elim Hne; apply String.leb_antisym; assumption);
    try (destruct (String.leb_total (fst a) (fst b)); congruence);
    try (rewrite (leb_trans _ _ _ Eab Ebh) in Eah; discriminate);
    try (rewrite (leb_trans _ _ _ Eba Eah) in Ebh; discriminate);
    rewrite IH; reflexivity.
Qed.

Lemma sort_items_perm l1 l2 :
  Permutation l1 l2 -> NoDup (map fst l1) -> sort_items l1 = sort_items l2.
Proof.
  induction 1 as [|x l l' Hp IH|x y l|l l' l'' Hp1 IH1 Hp2 IH2]; simpl; intros Hd.
  - reflexivity.
  - inversion Hd; subst. rewrite IH; auto.
  - apply insert_item_comm. inversion Hd as [|? ? Hn _]; subst.
    intros E. apply Hn. left. symmetry. exact E.
  - rewrite IH1 by assumption. apply IH2.
    eapply Permutation_NoDup; [|exact Hd]. apply Permutation_map, Hp1.
Qed.

Lemma get_in {A} k (v : A) d : Dict.get k d = Some v -> In (k, v) d.
Proof.
  induction d as [|[k' v'] t IH]; simpl; [discriminate|].
  destruct (String.eqb_spec k k') as [->|Hne].
  - intros [= ->]. left; reflexivity.
  - intros H. right. apply IH, H.
Qed.

Lemma in_get {A} k (v : A) d :
  NoDup (map fst d) -> In (k, v) d -> Dict.get k d = Some v.
Proof.
  induction d as [|[k' v'] t IH]; simpl; [contradiction|].
  intros Hd Hin. inversion Hd as [|? ? Hn Hd']; subst.
  destruct Hin as [[= -> ->]|Hin].
  - rewrite String.eqb_refl. reflexivity.
  - destruct (String.eqb_spec k k') as [->|Hne].
    + elim Hn. apply in_map_iff. exists (k', v); split; [reflexivity|exact Hin].
    + apply IH; assumption.
Qed.

Lemma mem_get {A} k (d1 d2 : list (string * A)) v :
  Dict.mem k d1 = Dict.mem k d2 -> Dict.get k d1 = Some v ->
  exists v', Dict.get k d2 = Some v'.
Proof.
  unfold Dict.mem. intros H G. rewrite G in H.
  destruct (Dict.get k d2) as [v'|]; [exists v'; reflexivity | discriminate].
Qed.

Lemma rendered_keys d : map fst (rendered d) = map fst d.
Proof. unfold rendered. rewrite map_map. reflexivity. Qed.

Lemma rendered_incl d1 d2 :
  NoDup (map fst d1) ->
  (forall k, Dict.mem k d1 = Dict.mem k d2) ->
  (forall k v1 v2, Dict.get k d1 = Some v1 -> Dict.get k d2 = Some v2 ->
                   dumps v1 = dumps v2) ->
  forall x, In x (rendered d1) -> In x (rendered d2).
Proof.
  intros Hd Hm Hv x Hin. unfold rendered in *.
  apply in_map_iff in Hin. destruct Hin as [[k v] [<- Hin]]. simpl.
  pose proof (in_get _ _ _ Hd Hin) as Hg.
  destruct (mem_get _ _ _ _ (Hm k) Hg) as [v' Hg'].
  rewrite (Hv _ _ _ Hg Hg').
  apply in_map_iff. exists (k, v'). split; [reflexivity | apply get_in, Hg'].
Qed.

Lemma NoDup_of_keys {A B} (l : list (A * B)) : NoDup (map fst l) -> NoDup l.
Proof.
  induction l as [|x t IH]; simpl; intros H; [constructor|].
  inversion H; subst. constructor; [|auto].
  intros Hin. apply H2. apply in_map, Hin.
Qed.

Lemma dumps_same v1 v2 :
  same v1 v2 -> wf v1 -> wf v2 -> dumps v1 = dumps v2.
Proof.
  induction 1 as [| | | |l1 l2 Hlen Hs IH|d1 d2 Hm Hs IH]; intros W1 W2;
    try reflexivity.
  - inversion W1 as [| | | |? W1'|]; inversion W2 as [| | | |? W2'|]; subst.
    simpl. do 2 f_equal. f_equal.
    clear W1 W2. revert l2 Hlen Hs IH W2'.
    induction l1 as [|a l1 IHl]; intros [|b l2];
      simpl; try discriminate; intros Hlen Hs IH W2'; [reflexivity|].
    f_equal.
    + apply (IH 0%nat); [reflexivity | reflexivity | |].
      * apply W1'; left; reflexivity.
      * apply W2'; left; reflexivity.
    + apply IHl.
      * intros v Hv; apply W1'; right; exact Hv.
      * congruence.
      * intros i; apply (Hs (S i)).
      * intros i; apply (IH (S i)).
      * intros v Hv; apply W2'; right; exact Hv.
  - inversion W1 as [| | | | |? N1 W1']; inversion W2 as [| | | | |? N2 W2']; subst.
    simpl. do 4 f_equal.
    fold (rendered d1); fold (rendered d2).
    apply sort_items_perm; [|rewrite rendered_keys; exact N1].
    apply NoDup_Permutation.
    + apply NoDup_of_keys. rewrite rendered_keys; exact N1.
    + apply NoDup_of_keys. rewrite rendered_keys; exact N2.
    + intros x; split; apply rendered_incl; auto.
      * intros k v1 v2 G1 G2. apply (IH k); auto.
        -- apply (W1' k), get_in, G1.
        -- apply (W2' k), get_in, G2.
      * intros k v2 v1 G2 G1. symmetry. apply (IH k); auto.
        -- apply (W1' k), get_in, G1.
        -- apply (W2' k), get_in, G2.
Qed.

End JsonFacts.

Lemma bind_ok {A B} (c : result A) (k : A -> result B) (b : B) :
  bind c k = Ok b -> exists a, c = Ok a /\ k a = Ok b.
Proof.
  destruct c as [a|e]; simpl; [|discriminate].
  intros H. exists a. split; [reflexivity | exact H].
Qed.

Ltac bind_inv H :=
  let a := fresh "x" in
  let Ha := fresh "E" in
  apply bind_ok in H; destruct H as [a [Ha H]].

Module AggregatorFacts.
Import Dyn Enricher Aggregator Measure.

Lemma counter_set_sum k n c :
  sum_values (counter_set k n c) = sum_values c - counter_get k 0 c + n.
Proof.
  induction c as [|[k' n'] t IH]; simpl; [lia|].
  destruct (key_eqb k k'); simpl; [lia | rewrite IH; lia].
Qed.

Lemma count_sum k c c' : count k c = Ok c' -> sum_values c' = sum_values c + 1.
Proof.
  unfold count. destruct (hashable k); [|discriminate].
  intros [= <-]. rewrite counter_set_sum. lia.
Qed.

Lemma update_analytics_sums now a p a' :
  _update_analytics now a p = Ok a' ->
  sum_values (categories a') = sum_values (categories a) + 1
  /\ sum_values (status_distribution a')
     = sum_values (status_distribution a) + 1
  /\ total_projects a' = total_projects a.
Proof.
  unfold _update_analytics. intros H.
  bind_inv H. bind_inv H. bind_inv H. bind_inv H. bind_inv H. bind_inv H.
  injection H as <-. simpl.
  repeat split; eapply count_sum; eassumption.
Qed.

Lemma fold_projects_sums clock : forall todo i done a done' a',
  fold_projects clock i todo done a = Ok (done', a') ->
  sum_values (categories a')
  = sum_values (categories a) + Z.of_nat (List.length todo)
  /\ sum_values (status_distribution a')
     = sum_values (status_distribution a) + Z.of_nat (List.length todo)
  /\ total_projects a' = total_projects a.
Proof.
  induction todo as [|p rest IH]; intros i done a done' a' H.
  - injection H as _ <-. simpl. lia.
  - cbn [fold_projects] in H. bind_inv H. bind_inv H.
    apply IH in H. apply update_analytics_sums in E0.
    cbn [List.length]. lia.
Qed.

End AggregatorFacts.

(** C3. Whenever [transform] returns, the counts of [categories] add up
    to [total_projects], so do the counts of [status_distribution], and
    [total_projects] is the number of input records. *)
Theorem distribution_sums (stamp : string) (clock : nat -> Z)
    (input : list record) (r : Aggregator.Transformed) :
  Aggregator.transform stamp clock input = Ok r ->
  Measure.sum_values (Aggregator.categories (Aggregator.analytics r))
  = Aggregator.total_projects (Aggregator.analytics r)
  /\ Measure.sum_values
       (Aggregator.status_distribution (Aggregator.analytics r))
     = Aggregator.total_projects (Aggregator.analytics r)
  /\ Aggregator.total_projects (Aggregator.analytics r)
     = Z.of_nat (List.length input).
Proof.
  unfold Aggregator.transform. intros H.
  bind_inv H. destruct x as [done a]. bind_inv H.
  injection H as <-. simpl.
  apply AggregatorFacts.fold_projects_sums in E. simpl in E. lia.
Qed.

Module InsightFacts.
Import Dyn Enricher Aggregator.

(** [analytics] has no key [projects], so the list of completed projects
    is empty whatever was folded. *)
Lemma no_projects_key (a : Analytics) :
  Dict.get "projects" (analytics_items a) = None.
Proof. unfold analytics_items. destruct (insights a); reflexivity. Qed.

Lemma generate_insights_total (a : Analytics) :
  exists i, _generate_insights a = Ok i
            /\ Dict.get "average_project_duration_days" i = None.
Proof.
  unfold _generate_insights, Dict.get_default.
  rewrite no_projects_key. simpl.
  eexists; split; [reflexivity|].
  destruct (most (technologies a)), (most (categories a)); reflexivity.
Qed.

End InsightFacts.

(** C1, on the failing input. One completed project that lasted ten
    days is transformed; [insights] holds the completion rate and no
    [average_project_duration_days]. *)
Theorem average_duration_missing :
  exists r i,
    Aggregator.transform "2024-06-30T00:00:00" (fun _ => Scenario.run_time)
      [Scenario.completed_project] = Ok r
    /\ (exists p, Aggregator.projects r = [p]
          /\ Dict.get "status" p = Some (VStr "completed")
          /\ Dict.get "duration_days" p = Some (VInt 10))
    /\ Aggregator.insights (Aggregator.analytics r) = Some i
    /\ Dict.get "completion_rate" i = Some (Aggregator.IRate 1 1)
    /\ Dict.get "average_project_duration_days" i = None.
Proof.
  eexists; eexists. split; [vm_compute; reflexivity|].
  split; [eexists; split; [reflexivity | split; reflexivity]|].
  split; [reflexivity|]. split; reflexivity.
Qed.

(** Whatever the input, the insights of a run that returns hold no
    [average_project_duration_days]. *)
Theorem average_duration_never_reported (stamp : string) (clock : nat -> Z)
    (input : list record) :
  match Aggregator.transform stamp clock input with
  | Ok r =>
      exists i, Aggregator.insights (Aggregator.analytics r) = Some i
                /\ Dict.get "average_project_duration_days" i = None
  | Raise _ => True
  end.
Proof.
  unfold Aggregator.transform.
  destruct (Aggregator.fold_projects clock 0 input [] _) as [[done a]|e];
    simpl; [|exact I].
  destruct (InsightFacts.generate_insights_total a) as [i [-> Hi]]. simpl.
  exists i. split; [reflexivity | exact Hi].
Qed.

Module DictFacts.

Lemma get_set {A} (k k' : string) (v : A) (d : list (string * A)) :
  Dict.get k' (Dict.set k v d)
  = if String.eqb k' k then Some v else Dict.get k' d.
Proof.
  induction d as [|[k0 v0] t IH]; simpl.
  - reflexivity.
  - destruct (String.eqb_spec k k0) as [->|Hne]; simpl.
    + destruct (String.eqb k' k0); reflexivity.
    + rewrite IH. destruct (String.eqb_spec k' k0) as [->|Hne'];
        [|reflexivity].
      destruct (String.eqb_spec k0 k) as [->|_]; [contradiction|reflexivity].
Qed.

Lemma mem_true {A} (k : string) (d : list (string * A)) :
  Dict.mem k d = true -> exists v, Dict.get k d = Some v.
Proof.
  unfold Dict.mem. destruct (Dict.get k d) as [v|]; [|discriminate].
  exists v; reflexivity.
Qed.

End DictFacts.

Module EnricherFacts.
Import PyStr Dyn Enricher EnrichSteps.

Lemma enrich_ok (project e : record) :
  _enrich_project_data project = Ok e ->
  exists slug seo formatted,
    (Dict.mem "slug" project = false ->
       exists t, Dict.get "title" project = Some (VStr t)
                 /\ slug = VStr (_generate_slug t))
    /\ _generate_seo_metadata project = Ok seo
    /\ _format_description
         (Dict.get_default "shortDescription" (VStr "") project)
       = Ok formatted
    /\ e = Dict.set "formatted_description" (VStr formatted)
             (Dict.set "data_quality_score"
                (_calculate_data_quality_score project)
                (Dict.set "seo_metadata" seo
                   (Dict.set "content_hash"
                      (VStr (_generate_content_hash project))
                      (with_duration project (with_slug project slug))))).
Proof.
  unfold _enrich_project_data, with_slug, with_duration. intros H.
  bind_inv H. bind_inv H. bind_inv H. injection H as <-.
  destruct (Dict.mem "slug" project) eqn:Em; simpl in E.
  - injection E as <-. exists VNone, x0, x1.
    repeat split; try assumption. discriminate.
  - bind_inv E. bind_inv E. injection E as <-.
    unfold Dict.getitem in E2.
    destruct (Dict.get "title" project) as [tv|] eqn:Et; [|discriminate].
    injection E2 as ->. destruct x2; try discriminate. injection E3 as ->.
    exists (VStr (_generate_slug x3)), x0, x1.
    repeat split; try assumption.
    intros _. exists x3. split; reflexivity.
Qed.

(** Enrichment writes six keys and leaves every other key alone. *)
Lemma enrich_frame (project e : record) (k : string) :
  _enrich_project_data project = Ok e ->
  existsb (String.eqb k) written = false ->
  Dict.get k e = Dict.get k project.
Proof.
  intros H Hk. destruct (enrich_ok _ _ H) as (slug & seo & f & _ & _ & _ & ->).
  unfold written in Hk. simpl in Hk.
  repeat (apply orb_false_iff in Hk; destruct Hk as [? Hk]).
  rewrite !DictFacts.get_set.
  repeat match goal with E : String.eqb k _ = false |- _ => rewrite E; clear E end.
  unfold with_duration, with_slug.
  destruct (Dict.get "startDate" project), (Dict.get "endDate" project),
    (Dict.mem "slug" project);
    rewrite ?DictFacts.get_set;
    repeat match goal with E : String.eqb k _ = false |- _ => rewrite E end;
    reflexivity.
Qed.

Lemma enrich_slug_kept (project e : record) (v : value) :
  Dict.get "slug" project = Some v ->
  _enrich_project_data project = Ok e -> Dict.get "slug" e = Some v.
Proof.
  intros Hs H. destruct (enrich_ok _ _ H) as (slug & seo & f & _ & _ & _ & ->).
  rewrite !DictFacts.get_set. simpl.
  unfold with_duration, with_slug, Dict.mem. rewrite Hs.
  destruct (Dict.get "startDate" project), (Dict.get "endDate" project);
    rewrite ?DictFacts.get_set; simpl; exact Hs.
Qed.

Lemma enrich_content_hash (project e : record) :
  _enrich_project_data project = Ok e ->
  Dict.get "content_hash" e = Some (VStr (_generate_content_hash project)).
Proof.
  intros H. destruct (enrich_ok _ _ H) as (slug & seo & f & _ & _ & _ & ->).
  rewrite !DictFacts.get_set. reflexivity.
Qed.

End EnricherFacts.

(** C4. Two records that are equal as key-value trees, whatever the
    order of their keys, get the same [content_hash], which is the hash
    of the record as it was before enrichment. *)
Theorem content_hash_key_order (p1 p2 : record) :
  Tree.wf (VDict p1) -> Tree.wf (VDict p2) ->
  Tree.same (VDict p1) (VDict p2) ->
  Enricher._generate_content_hash p1 = Enricher._generate_content_hash p2
  /\ forall e1 e2,
       Enricher._enrich_project_data p1 = Ok e1 ->
       Enricher._enrich_project_data p2 = Ok e2 ->
       Dict.get "content_hash" e1
       = Some (VStr (Enricher._generate_content_hash p1))
       /\ Dict.get "content_hash" e2 = Dict.get "content_hash" e1.
Proof.
  intros W1 W2 S.
  assert (H : Enricher._generate_content_hash p1
              = Enricher._generate_content_hash p2).
  { unfold Enricher._generate_content_hash.
    f_equal. apply JsonFacts.dumps_same; assumption. }
  split; [exact H|]. intros e1 e2 H1 H2.
  rewrite (EnricherFacts.enrich_content_hash _ _ H1).
  rewrite (EnricherFacts.enrich_content_hash _ _ H2).
  rewrite H. split; reflexivity.
Qed.

(** C10. A record that has a [slug] key keeps its value unchanged
    through enrichment, whatever the value is. *)
Theorem slug_passed_through (project e : record) (v : value) :
  Dict.get "slug" project = Some v ->
  Enricher._enrich_project_data project = Ok e ->
  Dict.get "slug" e = Some v.
Proof. apply EnricherFacts.enrich_slug_kept. Qed.

(** C2, on its input. The slug is [my-cool-app] and the score 25; the
    formatted description ends in two periods, not one. *)
Theorem cool_app_enriched :
  exists e,
    Enricher._enrich_project_data Scenario.cool_app = Ok e
    /\ Dict.get "slug" e = Some (VStr "my-cool-app")
    /\ Dict.get "data_quality_score" e = Some (VInt 25)
    /\ Dict.get "formatted_description" e
       = Some (VStr ("It works. It scales." ++ Enricher.newline
                     ++ Enricher.newline ++ "It ships.."))
    /\ Dict.get "formatted_description" e
       <> Some (VStr ("It works. It scales." ++ Enricher.newline
                      ++ Enricher.newline ++ "It ships.")).
Proof.
  eexists. split; [vm_compute; reflexivity|].
  repeat split; try reflexivity. vm_compute. discriminate.
Qed.

(** Counterexample of C5. An end twelve hours before the start gives
    -1 where truncation toward zero gives 0; a naive start and an
    offset-aware end ten days later both parse and give 0. *)
Lemma duration_not_truncated :
  (exists e s d delta,
      Enricher._enrich_project_data Scenario.reversed_half_day = Ok e
      /\ Enricher.parse_date (VStr "2024-01-02T00:00:00") = Some s
      /\ Enricher.parse_date (VStr "2024-01-01T12:00:00") = Some d
      /\ Datetime.sub d s = Some delta
      /\ Z.quot delta Datetime.us_per_day = 0
      /\ Dict.get "duration_days" e = Some (VInt (-1)))
  /\ (exists e s d,
         Enricher._enrich_project_data Scenario.mixed_dates = Ok e
         /\ Enricher.parse_date (VStr "2024-01-01T00:00:00") = Some s
         /\ Enricher.parse_date (VStr "2024-01-11T00:00:00Z") = Some d
         /\ Datetime.wall d - Datetime.wall s = 10 * Datetime.us_per_day
         /\ Dict.get "duration_days" e = Some (VInt 0)).
Proof.
  split.
  - do 4 eexists. split; [vm_compute; reflexivity|].
    split; [vm_compute; reflexivity|]. split; [vm_compute; reflexivity|].
    split; [vm_compute; reflexivity|]. split; reflexivity.
  - do 3 eexists. split; [vm_compute; reflexivity|].
    split; [vm_compute; reflexivity|]. split; [vm_compute; reflexivity|].
    split; reflexivity.
Qed.

(** Counterexample of C6. The reading time of a record without content
    is the str [1], not the integer 1; a record whose overview is a
    number has no reading time at all, enrichment raises. *)
Lemma reading_time_is_text :
  (exists e seo,
      Enricher._enrich_project_data Scenario.bare = Ok e
      /\ Dict.get "seo_metadata" e = Some (VDict seo)
      /\ Dict.get "reading_time" seo = Some (VStr "1")
      /\ Dict.get "reading_time" seo <> Some (VInt 1))
  /\ Enricher._enrich_project_data Scenario.numeric_overview
     = Raise TypeError.
Proof.
  split; [|reflexivity].
  do 2 eexists. split; [vm_compute; reflexivity|].
  split; [reflexivity|]. split; [reflexivity|]. discriminate.
Qed.

(** C6, amended. When enrichment returns, [reading_time] is the decimal
    text of [m], where [m] is [len(content.overview) // 200] clamped to
    [1..10]: 1 below 200 characters (so for a missing or empty overview),
    10 from 2000 on. *)
Theorem reading_time_clamped (project e : record) :
  Enricher._enrich_project_data project = Ok e ->
  exists seo overview n m,
    Dict.get "seo_metadata" e = Some (VDict seo)
    /\ Dyn.dict_get "overview" (VStr "")
         (Dict.get_default "content" (VDict []) project) = Ok overview
    /\ Dyn.len overview = Ok n
    /\ Dict.get "reading_time" seo = Some (VStr (PyStr.of_Z m))
    /\ 1 <= m <= 10
    /\ (n < 200 -> m = 1)
    /\ (200 <= n < 2000 -> m = n / 200)
    /\ (2000 <= n -> m = 10).
Proof.
  intros H.
  destruct (EnricherFacts.enrich_ok _ _ H) as (slug & seo & f & _ & Hseo & _ & ->).
  unfold Enricher._generate_seo_metadata in Hseo.
  bind_inv Hseo. bind_inv Hseo. bind_inv Hseo. bind_inv Hseo. bind_inv Hseo.
  injection Hseo as <-.
  eexists. exists x2, x3, (Enricher.clamp_minutes x3).
  split; [rewrite !DictFacts.get_set; reflexivity|].
  split; [assumption|]. split; [assumption|]. split; [reflexivity|].
  unfold Enricher.clamp_minutes.
  assert (0 <= x3).
  { destruct x2; simpl in E3; try discriminate; injection E3 as <-; lia. }
  assert (x3 < 200 -> x3 / 200 = 0) by (intros; apply Z.div_small; lia).
  assert (200 <= x3 -> 1 <= x3 / 200)
    by (intros; apply Z.div_le_lower_bound; lia).
  assert (x3 < 2000 -> x3 / 200 < 10)
    by (intros; apply Z.div_lt_upper_bound; lia).
  assert (2000 <= x3 -> 10 <= x3 / 200)
    by (intros; apply Z.div_le_lower_bound; lia).
  lia.
Qed.

(** C8, on the failing input. An [endDate] ten days before run time
    written with a UTC designator parses, and the record is not recent;
    written without it, the record is recent; 200 days back it is not. *)
Theorem utc_date_never_recent :
  (exists d,
      Enricher.parse_date (VStr "2024-06-20T00:00:00Z") = Some d
      /\ Datetime.utcoffset d = Some 0
      /\ Datetime.wall d = Scenario.run_time - 10 * Datetime.us_per_day)
  /\ Aggregator._is_recent_project Scenario.run_time
       Scenario.ended_recently_utc = false
  /\ Aggregator._is_recent_project Scenario.run_time
       Scenario.ended_recently = true
  /\ Aggregator._is_recent_project Scenario.run_time
       Scenario.ended_long_ago = false
  /\ exists r,
       Aggregator.transform "2024-06-30T00:00:00"
         (fun _ => Scenario.run_time)
         [Scenario.ended_recently_utc; Scenario.ended_recently;
          Scenario.ended_long_ago] = Ok r
       /\ map (Dict.get "id")
            (Aggregator.recent_projects (Aggregator.analytics r))
          = [Some (VInt 4)].
Proof.
  split; [eexists; split; [vm_compute; reflexivity | split; reflexivity]|].
  split; [reflexivity|]. split; [reflexivity|]. split; [reflexivity|].
  eexists. split; [vm_compute; reflexivity|]. reflexivity.
Qed.

Module TotalityFacts.
Import PyStr Dyn Enricher Aggregator Schema.

Lemma typed_fields p :
  well_typed p = true ->
  field "title" is_str p = true /\ field "shortDescription" is_str p = true
  /\ field "category" is_str p = true
  /\ field "technologies" is_str_list p = true
  /\ field "status" is_str p = true /\ field "content" is_content p = true.
Proof.
  unfold well_typed. rewrite !andb_true_iff. tauto.
Qed.

Lemma all_str_ok l : forallb is_str l = true -> exists r, all_str l = Ok r.
Proof.
  induction l as [|v t IH]; simpl; [exists []; reflexivity|].
  rewrite andb_true_iff. intros [Hv Ht]. destruct v; try discriminate.
  destruct (IH Ht) as [r ->]. simpl. eexists; reflexivity.
Qed.

Lemma forallb_firstn {A} (f : A -> bool) n l :
  forallb f l = true -> forallb f (firstn n l) = true.
Proof.
  revert l; induction n as [|n IH]; intros [|a l]; simpl; try reflexivity.
  rewrite !andb_true_iff. intros [Ha Hl]. split; [exact Ha | apply IH, Hl].
Qed.

Lemma default_str k p :
  field k is_str p = true ->
  exists s, Dict.get_default k (VStr "") p = VStr s.
Proof.
  unfold field, Dict.get_default.
  destruct (Dict.get k p) as [[]|]; try discriminate; intros _;
    eexists; reflexivity.
Qed.

Lemma default_str_list k p :
  field k is_str_list p = true ->
  exists l, Dict.get_default k (VList []) p = VList l
            /\ forallb is_str l = true.
Proof.
  unfold field, Dict.get_default.
  destruct (Dict.get k p) as [[]|]; try discriminate; intros H.
  - eexists; split; [reflexivity | exact H].
  - exists []; split; reflexivity.
Qed.

Lemma overview_ok p :
  field "content" is_content p = true ->
  exists s,
    dict_get "overview" (VStr "") (Dict.get_default "content" (VDict []) p)
    = Ok (VStr s).
Proof.
  unfold field, Dict.get_default.
  destruct (Dict.get "content" p) as [[]|]; try discriminate; simpl.
  - intros H. destruct (default_str "overview" entries H) as [s ->].
    exists s; reflexivity.
  - intros _. eexists; reflexivity.
Qed.

Lemma seo_total p :
  well_typed p = true -> exists seo, _generate_seo_metadata p = Ok seo.
Proof.
  intros W. destruct (typed_fields _ W) as (_ & Hd & _ & Ht & _ & Hc).
  unfold _generate_seo_metadata.
  destruct (default_str _ _ Hd) as [d ->].
  destruct (default_str_list _ _ Ht) as [l [-> Hl]].
  destruct (overview_ok _ Hc) as [o ->].
  cbv [slice bind join_values iter].
  destruct (all_str_ok _ (forallb_firstn _ 5 _ Hl)) as [r ->].
  eexists; reflexivity.
Qed.

Lemma format_total p :
  well_typed p = true ->
  exists f,
    _format_description (Dict.get_default "shortDescription" (VStr "") p)
    = Ok f.
Proof.
  intros W. destruct (typed_fields _ W) as (_ & Hd & _).
  destruct (default_str _ _ Hd) as [d ->].
  unfold _format_description. simpl.
  destruct (negb (negb (String.eqb d ""))); [eexists; reflexivity|].
  destruct (1 <? _); eexists; reflexivity.
Qed.

Lemma enrich_total p :
  well_typed p = true ->
  Dict.mem "slug" p = true \/ Dict.mem "title" p = true ->
  exists e, _enrich_project_data p = Ok e.
Proof.
  intros W Hk.
  destruct (seo_total _ W) as [seo Hseo], (format_total _ W) as [f Hf].
  destruct (typed_fields _ W) as (Ht & _).
  unfold _enrich_project_data. rewrite Hseo, Hf.
  destruct (Dict.mem "slug" p) eqn:Es; simpl; [eexists; reflexivity|].
  destruct Hk as [Hk|Hk]; [discriminate|].
  destruct (DictFacts.mem_true _ _ Hk) as [v Hv].
  unfold Dict.getitem, field in *. rewrite Hv in *. simpl.
  destruct v; try discriminate. simpl. eexists; reflexivity.
Qed.

Lemma enrich_missing_title p :
  Dict.mem "title" p = false -> Dict.mem "slug" p = false ->
  _enrich_project_data p = Raise (KeyError "title").
Proof.
  intros Ht Hs. unfold _enrich_project_data. rewrite Hs. simpl.
  unfold Dict.getitem. unfold Dict.mem in Ht.
  destruct (Dict.get "title" p); [discriminate | reflexivity].
Qed.

(** What the aggregator reads is what the input record holds. *)
Lemma recent_frame now p e :
  _enrich_project_data p = Ok e ->
  _is_recent_project now e = _is_recent_project now p.
Proof.
  intros H. unfold _is_recent_project, Dict.get_default.
  rewrite (EnricherFacts.enrich_frame p e "endDate" H eq_refl).
  rewrite (EnricherFacts.enrich_frame p e "startDate" H eq_refl).
  reflexivity.
Qed.

Lemma count_all_ok l c :
  forallb is_str l = true -> exists c', count_all l c = Ok c'.
Proof.
  revert c; induction l as [|v t IH]; intros c; simpl;
    [exists c; reflexivity|].
  rewrite andb_true_iff. intros [Hv Ht]. destruct v; try discriminate.
  unfold count. simpl. apply IH, Ht.
Qed.

(** The outcome of [_update_analytics] on an enriched, well-typed
    record: it fails exactly on a missing id or title that the recent or
    the featured summary asks for. *)
Lemma update_outcome now a p e :
  well_typed p = true -> _enrich_project_data p = Ok e ->
  match Dict.get "id" p, Dict.get "title" p with
  | Some _, Some _ => exists a', _update_analytics now a e = Ok a'
  | None, _ =>
      if _is_recent_project now p || featured_test p
      then _update_analytics now a e = Raise (KeyError "id")
      else exists a', _update_analytics now a e = Ok a'
  | Some _, None =>
      if _is_recent_project now p || featured_test p
      then _update_analytics now a e = Raise (KeyError "title")
      else exists a', _update_analytics now a e = Ok a'
  end.
Proof.
  intros W H. destruct (typed_fields _ W) as (_ & _ & Hc & Ht & Hs & _).
  unfold _update_analytics, featured_test, Dict.get_default, Dict.getitem.
  rewrite (recent_frame now p e H).
  rewrite (EnricherFacts.enrich_frame p e "category" H eq_refl).
  rewrite (EnricherFacts.enrich_frame p e "technologies" H eq_refl).
  rewrite (EnricherFacts.enrich_frame p e "status" H eq_refl).
  rewrite (EnricherFacts.enrich_frame p e "featured" H eq_refl).
  rewrite (EnricherFacts.enrich_frame p e "id" H eq_refl).
  rewrite (EnricherFacts.enrich_frame p e "title" H eq_refl).
  rewrite (EnricherFacts.enrich_frame p e "startDate" H eq_refl).
  unfold field in *.
  assert (Hcat : exists c, count match Dict.get "category" p with
                                 | Some v => v | None => VStr "uncategorized"
                                 end (categories a) = Ok c).
  { destruct (Dict.get "category" p) as [[]|]; try discriminate;
      unfold count; simpl; eexists; reflexivity. }
  destruct Hcat as [c ->]. simpl.
  assert (Hst : exists c, count match Dict.get "status" p with
                                | Some v => v | None => VStr "unknown"
                                end (status_distribution a) = Ok c).
  { destruct (Dict.get "status" p) as [[]|]; try discriminate;
      unfold count; simpl; eexists; reflexivity. }
  destruct Hst as [c' Hst].
  assert (Hte : exists l, match Dict.get "technologies" p with
                          | Some v => v | None => VList []
                          end = VList l /\ forallb is_str l = true).
  { destruct (Dict.get "technologies" p) as [[]|]; try discriminate.
    - eexists; split; [reflexivity | exact Ht].
    - exists []; split; reflexivity. }
  destruct Hte as [l [-> Hl]]. simpl.
  destruct (count_all_ok l (technologies a) Hl) as [tc ->]. simpl.
  rewrite Hst. simpl.
  destruct (Dict.get "id" p) as [i|], (Dict.get "title" p) as [t|];
    destruct (_is_recent_project now p); simpl;
    destruct (truthy match Dict.get "featured" p with
                     | Some v => v | None => VBool false end);
    simpl; try reflexivity; eexists; reflexivity.
Qed.

Lemma update_total now a p e :
  well_typed p = true -> has_id_and_title p = true ->
  _enrich_project_data p = Ok e ->
  exists a', _update_analytics now a e = Ok a'.
Proof.
  intros W Hk H. pose proof (update_outcome now a p e W H) as Ho.
  unfold has_id_and_title in Hk. apply andb_true_iff in Hk.
  destruct Hk as [Hi Ht].
  destruct (DictFacts.mem_true _ _ Hi) as [i Hi'].
  destruct (DictFacts.mem_true _ _ Ht) as [t Ht'].
  rewrite Hi', Ht' in Ho. exact Ho.
Qed.

Lemma fold_good clock rest : forall input i done a,
  Forall good input ->
  exists done' a',
    fold_projects clock i (input ++ rest) done a
    = fold_projects clock (i + List.length input) rest done' a'.
Proof.
  induction input as [|p input IH]; intros i done a Hg.
  - exists done, a. simpl. rewrite Nat.add_0_r. reflexivity.
  - inversion Hg as [|? ? [W Hk] Hg']; subst.
    assert (Hm : Dict.mem "slug" p = true \/ Dict.mem "title" p = true).
    { right. unfold has_id_and_title in Hk. apply andb_true_iff in Hk. apply Hk. }
    destruct (enrich_total p W Hm) as [e He].
    destruct (update_total (clock i) a p e W Hk He) as [a' Ha].
    destruct (IH (S i) (done ++ [e]) a' Hg') as (done' & a'' & Hf).
    exists done', a''. cbn [fold_projects app]. rewrite He. simpl.
    rewrite Ha. simpl. rewrite Hf. f_equal. simpl. lia.
Qed.

Lemma transform_total stamp clock input :
  Forall good input -> exists r, transform stamp clock input = Ok r.
Proof.
  intros Hg. unfold transform.
  destruct (fold_good clock [] input 0%nat [] 
              (mk_analytics (Z.of_nat (List.length input)) [] [] [] [] [] stamp [] None) Hg)
    as (done & a & Hf).
  rewrite app_nil_r in Hf. rewrite Hf. simpl.
  destruct (InsightFacts.generate_insights_total a) as [i [-> _]]. simpl.
  eexists; reflexivity.
Qed.

Lemma transform_fails_at stamp clock before p rest err :
  Forall good before ->
  (forall a,
      bind (_enrich_project_data p)
        (fun e => _update_analytics (clock (List.length before)) a e)
      = Raise err) ->
  transform stamp clock (before ++ p :: rest) = Raise err.
Proof.
  intros Hg Hp. unfold transform.
  destruct (fold_good clock (p :: rest) before 0%nat []
              (mk_analytics (Z.of_nat (List.length (before ++ p :: rest)))
                 [] [] [] [] [] stamp [] None) Hg)
    as (done & a & Hf).
  rewrite Hf. cbn [fold_projects]. specialize (Hp a). simpl in Hp.
  destruct (_enrich_project_data p) as [e|e']; simpl in *.
  - rewrite Hp. reflexivity.
  - injection Hp as ->. reflexivity.
Qed.

End TotalityFacts.

(** C5, amended. With both dates present, the dates never make
    enrichment raise, and [duration_days] is the floor of
    (end - start) / 1 day when both dates parse and are both naive or
    both offset-aware, and 0 in every other case. *)
Theorem duration_days_floor (project : record) (start_date end_date : value) :
  Dict.get "startDate" project = Some start_date ->
  Dict.get "endDate" project = Some end_date ->
  (Schema.well_typed project = true ->
   Dict.mem "slug" project = true \/ Dict.mem "title" project = true ->
   exists e, Enricher._enrich_project_data project = Ok e)
  /\ forall e,
       Enricher._enrich_project_data project = Ok e ->
       exists n,
         Dict.get "duration_days" e = Some (VInt n)
         /\ match Enricher.parse_date start_date,
                 Enricher.parse_date end_date with
            | Some s, Some d =>
                match Datetime.utcoffset s, Datetime.utcoffset d with
                | None, None =>
                    n * Datetime.us_per_day
                    <= Datetime.wall d - Datetime.wall s
                    < (n + 1) * Datetime.us_per_day
                | Some os, Some od =>
                    n * Datetime.us_per_day
                    <= (Datetime.wall d - od) - (Datetime.wall s - os)
                    < (n + 1) * Datetime.us_per_day
                | _, _ => n = 0
                end
            | _, _ => n = 0
            end.
Proof.
  intros Hs He. split; [apply TotalityFacts.enrich_total|]. intros e H.
  destruct (EnricherFacts.enrich_ok _ _ H) as (slug & seo & f & _ & _ & _ & ->).
  exists (Enricher._calculate_duration start_date end_date). split.
  - rewrite !DictFacts.get_set. simpl.
    unfold EnrichSteps.with_duration. rewrite Hs, He.
    rewrite DictFacts.get_set. reflexivity.
  - unfold Enricher._calculate_duration, Enricher.try_duration.
    destruct (Enricher.parse_date start_date) as [s|]; [|reflexivity].
    destruct (Enricher.parse_date end_date) as [d|]; [|reflexivity].
    unfold Datetime.sub, Datetime.days.
    assert (Hd : 0 < Datetime.us_per_day) by reflexivity.
    destruct (Datetime.utcoffset s), (Datetime.utcoffset d); try reflexivity.
    + pose proof (Z.mul_div_le (Datetime.wall d - z0 - (Datetime.wall s - z)) _ Hd).
      pose proof (Z.mul_succ_div_gt (Datetime.wall d - z0 - (Datetime.wall s - z)) _ Hd).
      lia.
    + pose proof (Z.mul_div_le (Datetime.wall d - Datetime.wall s) _ Hd).
      pose proof (Z.mul_succ_div_gt (Datetime.wall d - Datetime.wall s) _ Hd).
      lia.
Qed.

(** C9. On records with the field types of a ProjectRecord, [transform]
    returns when every record has [id] and [title]; it raises
    KeyError('title') at a record with neither [title] nor [slug], and a
    KeyError at a record without [id] that passes the recent or the
    featured test. *)
Theorem transform_total_on_id_and_title (stamp : string) (clock : nat -> Z)
    (before : list record) (p : record) (rest : list record) :
  Forall (fun q => Schema.well_typed q = true
                   /\ Schema.has_id_and_title q = true) before ->
  Schema.well_typed p = true ->
  (exists r, Aggregator.transform stamp clock before = Ok r)
  /\ (Dict.mem "title" p = false -> Dict.mem "slug" p = false ->
      Aggregator.transform stamp clock (before ++ p :: rest)
      = Raise (KeyError "title"))
  /\ (Dict.mem "id" p = false ->
      Aggregator._is_recent_project (clock (List.length before)) p
      || Schema.featured_test p = true ->
      exists key,
        Aggregator.transform stamp clock (before ++ p :: rest)
        = Raise (KeyError key)).
Proof.
  intros Hg W. split; [apply TotalityFacts.transform_total, Hg|]. split.
  - intros Ht Hs. apply TotalityFacts.transform_fails_at; [exact Hg|].
    intros a. rewrite (TotalityFacts.enrich_missing_title p Ht Hs). reflexivity.
  - intros Hi Hr.
    destruct (Dict.mem "slug" p) eqn:Es; [|destruct (Dict.mem "title" p) eqn:Et].
    + exists "id". apply TotalityFacts.transform_fails_at; [exact Hg|].
      intros a. destruct (TotalityFacts.enrich_total p W (or_introl Es)) as [e He].
      rewrite He. simpl.
      pose proof (TotalityFacts.update_outcome (clock (List.length before)) a p e W He)
        as Ho.
      unfold Dict.mem in Hi. destruct (Dict.get "id" p); [discriminate|].
      rewrite Hr in Ho. exact Ho.
    + exists "id". apply TotalityFacts.transform_fails_at; [exact Hg|].
      intros a. destruct (TotalityFacts.enrich_total p W (or_intror Et)) as [e He].
      rewrite He. simpl.
      pose proof (TotalityFacts.update_outcome (clock (List.length before)) a p e W He)
        as Ho.
      unfold Dict.mem in Hi. destruct (Dict.get "id" p); [discriminate|].
      rewrite Hr in Ho. exact Ho.
    + exists "title". apply TotalityFacts.transform_fails_at; [exact Hg|].
      intros a. rewrite (TotalityFacts.enrich_missing_title p Et Es). reflexivity.
Qed.

(** Counterexample of C9. A record that has [id] and [title] is not
    enough for [transform] to return: with a null title and no slug,
    [title.lower()] raises AttributeError; with a number under
    [technologies], the join of the keywords raises TypeError. Both
    records fail the field types of a ProjectRecord. *)
Lemma transform_needs_field_types :
  (Schema.has_id_and_title Untyped.null_title = true
   /\ Schema.well_typed Untyped.null_title = false
   /\ Aggregator.transform "2024-06-30T00:00:00" (fun _ => Scenario.run_time)
        [Untyped.null_title] = Raise AttributeError)
  /\ (Schema.has_id_and_title Untyped.numeric_technologies = true
      /\ Schema.well_typed Untyped.numeric_technologies = false
      /\ Aggregator.transform "2024-06-30T00:00:00"
           (fun _ => Scenario.run_time)
           [Scenario.completed_project; Untyped.numeric_technologies]
         = Raise TypeError).
Proof.
  split; (split; [reflexivity|]; split; [reflexivity|]);
    vm_compute; reflexivity.
Qed.

Module Witnesses.
Import Tree.

Ltac wf_tree :=
  repeat first
    [ apply wf_none | apply wf_bool | apply wf_int | apply wf_str
    | apply wf_dict;
      [ repeat constructor; simpl; intuition discriminate
      | simpl; intros ? ? Hin;
        repeat (destruct Hin as [Hin|Hin]; [injection Hin as <- <-|]);
        [..|contradiction] ] ].

Lemma ordered_wf : wf (VDict Scenario.ordered).
Proof. unfold Scenario.ordered. wf_tree. Defined.

Lemma shuffled_wf : wf (VDict Scenario.shuffled).
Proof. unfold Scenario.shuffled. wf_tree. Defined.

Ltac by_key k :=
  simpl;
  repeat match goal with
         | |- context [String.eqb k ?s] =>
             destruct (String.eqb_spec k s) as [->|?]; simpl
         end.

Ltac same_dicts :=
  apply same_dict;
  [ intros k; unfold Dict.mem; by_key k; reflexivity
  | intros k v1 v2; by_key k;
    first [ intros [= <-] [= <-] | intros [=] ] ].

Lemma content_same :
  same (VDict [("overview", VStr "Maps"); ("challenge", VNone)])
       (VDict [("challenge", VNone); ("overview", VStr "Maps")]).
Proof. same_dicts; constructor. Defined.

Lemma ordered_same_shuffled :
  same (VDict Scenario.ordered) (VDict Scenario.shuffled).
Proof.
  unfold Scenario.ordered, Scenario.shuffled.
  same_dicts; first [exact content_same | constructor].
Defined.

End Witnesses.

(** [distribution_sums] at a concrete input. *)
Lemma distribution_sums_witness :
  exists r,
    Aggregator.transform "2024-06-30T00:00:00" (fun _ => Scenario.run_time)
      [Scenario.completed_project; Scenario.ended_recently_utc;
       Scenario.ended_long_ago] = Ok r
    /\ Measure.sum_values (Aggregator.categories (Aggregator.analytics r)) = 3
    /\ Measure.sum_values
         (Aggregator.status_distribution (Aggregator.analytics r)) = 3
    /\ Aggregator.total_projects (Aggregator.analytics r) = 3.
Proof.
  eexists. split; [vm_compute; reflexivity|].
  match goal with
  | |- context [Aggregator.analytics ?r] =>
      pose proof (distribution_sums "2024-06-30T00:00:00"
                    (fun _ => Scenario.run_time)
                    [Scenario.completed_project; Scenario.ended_recently_utc;
                     Scenario.ended_long_ago] r) as H
  end.
  destruct H as (H1 & H2 & H3); [vm_compute; reflexivity|].
  rewrite H1, H2, H3. repeat split.
Defined.

(** [content_hash_key_order] at a concrete input. *)
Lemma content_hash_key_order_witness :
  Tree.wf (VDict Scenario.ordered) /\ Tree.wf (VDict Scenario.shuffled)
  /\ Tree.same (VDict Scenario.ordered) (VDict Scenario.shuffled)
  /\ Scenario.ordered <> Scenario.shuffled
  /\ Enricher._generate_content_hash Scenario.ordered
     = Enricher._generate_content_hash Scenario.shuffled.
Proof.
  split; [exact Witnesses.ordered_wf|].
  split; [exact Witnesses.shuffled_wf|].
  split; [exact Witnesses.ordered_same_shuffled|].
  split; [discriminate|].
  apply (content_hash_key_order Scenario.ordered Scenario.shuffled
           Witnesses.ordered_wf Witnesses.shuffled_wf
           Witnesses.ordered_same_shuffled).
Defined.

(** [duration_days_floor] at a concrete input. *)
Lemma duration_days_floor_witness :
  Dict.get "startDate" Scenario.reversed_half_day
  = Some (VStr "2024-01-02T00:00:00")
  /\ Dict.get "endDate" Scenario.reversed_half_day
     = Some (VStr "2024-01-01T12:00:00")
  /\ exists e,
       Enricher._enrich_project_data Scenario.reversed_half_day = Ok e
       /\ Dict.get "duration_days" e = Some (VInt (-1)).
Proof.
  split; [reflexivity|]. split; [reflexivity|].
  destruct (duration_days_floor Scenario.reversed_half_day
              (VStr "2024-01-02T00:00:00") (VStr "2024-01-01T12:00:00")
              eq_refl eq_refl) as [Htotal Hdays].
  destruct (Htotal eq_refl (or_intror eq_refl)) as [e He].
  exists e. split; [exact He|].
  destruct (Hdays e He) as [n [Hn Hb]].
  assert (P1 : Enricher.parse_date (VStr "2024-01-02T00:00:00")
               = Some (Datetime.mk_datetime 63839750400000000 None))
    by (vm_compute; reflexivity).
  assert (P2 : Enricher.parse_date (VStr "2024-01-01T12:00:00")
               = Some (Datetime.mk_datetime 63839707200000000 None))
    by (vm_compute; reflexivity).
  rewrite P1, P2 in Hb. cbn [Datetime.utcoffset Datetime.wall] in Hb.
  unfold Datetime.us_per_day, Datetime.us_per_second in Hb.
  assert (n = -1) by lia. subst n. exact Hn.
Defined.

(** [reading_time_clamped] at a concrete input. *)
Lemma reading_time_clamped_witness :
  exists e seo,
    Enricher._enrich_project_data Scenario.bare = Ok e
    /\ Dict.get "seo_metadata" e = Some (VDict seo)
    /\ Dict.get "reading_time" seo = Some (VStr "1").
Proof.
  assert (He : exists e, Enricher._enrich_project_data Scenario.bare = Ok e)
    by (eexists; vm_compute; reflexivity).
  destruct He as [e He].
  destruct (reading_time_clamped Scenario.bare e He)
    as (seo & overview & n & m & Hseo & Hov & Hlen & Hrt & _ & Hsmall & _).
  exists e, seo. split; [exact He|]. split; [exact Hseo|].
  injection Hov as <-. injection Hlen as <-.
  rewrite (Hsmall ltac:(reflexivity)) in Hrt. exact Hrt.
Defined.

(** [transform_total_on_id_and_title] at a concrete input. *)
Lemma transform_total_on_id_and_title_witness :
  Forall Schema.good [Scenario.bare; Scenario.completed_project]
  /\ Schema.well_typed Scenario.untitled = true
  /\ (exists r,
         Aggregator.transform "2024-06-30T00:00:00"
           (fun _ => Scenario.run_time)
           [Scenario.bare; Scenario.completed_project] = Ok r)
  /\ Aggregator.transform "2024-06-30T00:00:00" (fun _ => Scenario.run_time)
       ([Scenario.bare; Scenario.completed_project]
        ++ Scenario.untitled :: [Scenario.ended_recently])
     = Raise (KeyError "title").
Proof.
  assert (Hg : Forall Schema.good [Scenario.bare; Scenario.completed_project])
    by (repeat constructor).
  split; [exact Hg|]. split; [reflexivity|].
  destruct (transform_total_on_id_and_title "2024-06-30T00:00:00"
              (fun _ => Scenario.run_time)
              [Scenario.bare; Scenario.completed_project]
              Scenario.untitled [Scenario.ended_recently] Hg eq_refl)
    as (Htotal & Htitle & _).
  split; [exact Htotal | exact (Htitle eq_refl eq_refl)].
Defined.

(** [slug_passed_through] at a concrete input. *)
Lemma slug_passed_through_witness :
  (exists e,
      Enricher._enrich_project_data Scenario.empty_slug = Ok e
      /\ Dict.get "slug" e = Some (VStr ""))
  /\ (exists e,
         Enricher._enrich_project_data Scenario.odd_slug = Ok e
         /\ Dict.get "slug" e = Some (VStr "Not a Slug/?")).
Proof.
  split.
  - assert (He : exists e,
               Enricher._enrich_project_data Scenario.empty_slug = Ok e)
      by (eexists; vm_compute; reflexivity).
    destruct He as [e He]. exists e. split; [exact He|].
    exact (slug_passed_through Scenario.empty_slug e (VStr "") eq_refl He).
  - assert (He : exists e,
               Enricher._enrich_project_data Scenario.odd_slug = Ok e)
      by (eexists; vm_compute; reflexivity).
    destruct He as [e He]. exists e. split; [exact He|].
    exact (slug_passed_through Scenario.odd_slug e (VStr "Not a Slug/?")
             eq_refl He).
Defined.

(** The data quality score lies between 0 and 100, so the cap of
    [_calculate_data_quality_score] never applies. *)
Theorem score_bounds (p : record) :
  0 <= Enricher.score_of p <= 100
  /\ Enricher._calculate_data_quality_score p = VInt (Enricher.score_of p).
Proof.
  assert (H : 0 <= Enricher.score_of p <= 100).
  { unfold Enricher.score_of, Enricher.checks. cbn [fold_left fst snd].
    repeat match goal with
           | |- context [truthy ?v] => destruct (truthy v)
           end; lia. }
  split; [exact H|]. unfold Enricher._calculate_data_quality_score.
  destruct (Z.ltb_spec 100 (Enricher.score_of p)); [lia | reflexivity].
Qed.

(** A record is recent exactly when its effective date (endDate, else
    startDate) is a non-empty str that parses to a naive datetime
    strictly after run time minus 180 days. *)
Theorem recent_iff_naive_and_after (now : Z) (p : record) :
  Aggregator._is_recent_project now p = true
  <-> exists d,
        truthy (Recency.effective_date p) = true
        /\ Enricher.parse_date (Recency.effective_date p) = Some d
        /\ Datetime.utcoffset d = None
        /\ 0 <= now - Aggregator.days_180 < Datetime.wall d.
Proof.
  unfold Aggregator._is_recent_project, Recency.effective_date,
    Datetime.gt_naive.
  set (eff := Dict.get_default "endDate" _ p).
  destruct (truthy eff); simpl.
  - destruct (Enricher.parse_date eff) as [d|].
    + destruct (Z.ltb_spec (now - Aggregator.days_180) 0).
      * split; [discriminate|]. intros (d' & _ & [= <-] & _ & ?). lia.
      * destruct (Datetime.utcoffset d) eqn:Eo.
        -- split; [discriminate|]. intros (d' & _ & [= <-] & ? & _). congruence.
        -- rewrite Z.ltb_lt. split.
           ++ intros Hlt. exists d. repeat split; auto.
           ++ intros (d' & _ & [= <-] & _ & ?). lia.
    + split; [discriminate|]. intros (d' & _ & ? & _). discriminate.
  - split; [discriminate|]. intros (d' & ? & _). discriminate.
Qed.

Module FoldFacts.
Import Dyn Enricher Aggregator Folds.

Lemma fold_run clock : forall todo i done a done' a',
  fold_projects clock i todo done a = Ok (done', a') ->
  exists es, done' = done ++ es /\ run clock i todo es a a'.
Proof.
  induction todo as [|p rest IH]; intros i done a done' a' H.
  - injection H as <- <-. exists []. rewrite app_nil_r. split; constructor.
  - cbn [fold_projects] in H. bind_inv H. bind_inv H.
    destruct (IH _ _ _ _ _ H) as (es & -> & Hr).
    exists (x :: es). rewrite <- app_assoc. split; [reflexivity|].
    econstructor; eassumption.
Qed.

Lemma transform_run stamp clock input r :
  transform stamp clock input = Ok r ->
  exists a i,
    run clock 0 input (projects r) (start stamp (List.length input)) a
    /\ _generate_insights a = Ok i
    /\ analytics r
       = mk_analytics (total_projects a) (categories a) (technologies a)
           (status_distribution a) (recent_projects a) (featured_projects a)
           (processing_timestamp a) (data_quality_metrics a) (Some i).
Proof.
  unfold transform. intros H. bind_inv H. destruct x as [done a].
  bind_inv H. injection H as <-.
  destruct (fold_run _ _ _ _ _ _ _ E) as (es & -> & Hr).
  exists a, x. simpl. repeat split; assumption.
Qed.

Lemma run_enriched clock i todo es a a' :
  run clock i todo es a a' ->
  Forall2 (fun p e => _enrich_project_data p = Ok e) todo es.
Proof. induction 1; constructor; assumption. Qed.

End FoldFacts.

(** Whenever [transform] returns, its [projects] are the enrichments of
    the input records, one for each and in the same order. *)
Theorem transform_projects_aligned (stamp : string) (clock : nat -> Z)
    (input : list record) (r : Aggregator.Transformed) :
  Aggregator.transform stamp clock input = Ok r ->
  Forall2 (fun p e => Enricher._enrich_project_data p = Ok e)
    input (Aggregator.projects r).
Proof.
  intros H. destruct (FoldFacts.transform_run _ _ _ _ H) as (a & i & Hr & _).
  eapply FoldFacts.run_enriched, Hr.
Qed.

Module CountFacts.
Import Dyn Enricher Aggregator Folds.

Lemma key_eqb_sym a b : key_eqb a b = key_eqb b a.
Proof.
  destruct a, b; simpl; try reflexivity.
  - destruct b0, b; reflexivity.
  - apply Z.eqb_sym.
  - apply String.eqb_sym.
Qed.

Lemma key_eqb_trans a b c :
  key_eqb a b = true -> key_eqb a c = key_eqb b c.
Proof.
  destruct a as [|x|x|x|x|x], b as [|y|y|y|y|y]; simpl; try discriminate;
    intros H.
  - reflexivity.
  - apply Bool.eqb_prop in H. subst. reflexivity.
  - apply Z.eqb_eq in H. subst.
    destruct c as [|z|z|z|z|z]; simpl; try reflexivity.
    destruct x, z; reflexivity.
  - apply Z.eqb_eq in H. subst.
    destruct c as [|z|z|z|z|z]; simpl; try reflexivity.
    destruct y, z; reflexivity.
  - apply Z.eqb_eq in H. subst. reflexivity.
  - apply String.eqb_eq in H. subst. reflexivity.
Qed.

Lemma counter_get_set k k' d n c :
  counter_get k d (counter_set k' n c)
  = if key_eqb k k' then n else counter_get k d c.
Proof.
  induction c as [|[k0 n0] t IH]; simpl; [reflexivity|].
  destruct (key_eqb k' k0) eqn:E0; simpl.
  - rewrite (key_eqb_sym k k'), (key_eqb_sym k k0).
    rewrite (key_eqb_trans k' k0 k E0).
    destruct (key_eqb k0 k); reflexivity.
  - rewrite IH. destruct (key_eqb k k0) eqn:E1; [|reflexivity].
    destruct (key_eqb k k') eqn:E2; [|reflexivity].
    rewrite (key_eqb_sym k k') in E2.
    rewrite (key_eqb_trans k' k k0 E2) in E0. congruence.
Qed.

Lemma count_get k k' c c' :
  count k' c = Ok c' ->
  counter_get k 0 c' = counter_get k 0 c + occurrences k [k'].
Proof.
  unfold count, occurrences. destruct (hashable k'); [|discriminate].
  intros [= <-]. rewrite counter_get_set. cbn [filter].
  destruct (key_eqb k k') eqn:E; cbn [List.length]; [|lia].
  assert (H : counter_get k' 0 c = counter_get k 0 c).
  { clear -E. induction c as [|[k0 n0] t IH]; simpl; [reflexivity|].
    rewrite (key_eqb_trans k k' k0 E). rewrite IH. reflexivity. }
  rewrite H. lia.
Qed.

Lemma occurrences_app k l1 l2 :
  occurrences k (l1 ++ l2) = occurrences k l1 + occurrences k l2.
Proof.
  unfold occurrences. rewrite filter_app, length_app. lia.
Qed.

Lemma occurrences_cons k x l :
  occurrences k (x :: l) = occurrences k [x] + occurrences k l.
Proof. apply (occurrences_app k [x] l). Qed.

Lemma count_all_get k : forall l c c',
  count_all l c = Ok c' ->
  counter_get k 0 c' = counter_get k 0 c + occurrences k l.
Proof.
  induction l as [|x l IH]; intros c c' H; simpl in H.
  - injection H as <-. unfold occurrences. simpl. lia.
  - bind_inv H. rewrite (IH _ _ H), (count_get k _ _ _ E).
    rewrite (occurrences_cons k x l). lia.
Qed.

Lemma labels_frame p e :
  _enrich_project_data p = Ok e ->
  category_of e = category_of p /\ status_of e = status_of p
  /\ techs_of e = techs_of p.
Proof.
  intros H. unfold category_of, status_of, techs_of, Dict.get_default.
  rewrite (EnricherFacts.enrich_frame p e "category" H eq_refl).
  rewrite (EnricherFacts.enrich_frame p e "status" H eq_refl).
  rewrite (EnricherFacts.enrich_frame p e "technologies" H eq_refl).
  repeat split.
Qed.

Lemma update_counts now a e a' k :
  _update_analytics now a e = Ok a' ->
  counter_get k 0 (categories a')
  = counter_get k 0 (categories a) + occurrences k [category_of e]
  /\ counter_get k 0 (status_distribution a')
     = counter_get k 0 (status_distribution a) + occurrences k [status_of e]
  /\ counter_get k 0 (technologies a')
     = counter_get k 0 (technologies a) + occurrences k (techs_of e).
Proof.
  unfold _update_analytics. intros H.
  bind_inv H. bind_inv H. bind_inv H. bind_inv H. bind_inv H. bind_inv H.
  injection H as <-. simpl.
  split; [eapply count_get; exact E|].
  split; [eapply count_get; exact E2|].
  unfold techs_of. rewrite E0. eapply count_all_get; exact E1.
Qed.

Lemma run_counts clock k i todo es a a' :
  run clock i todo es a a' ->
  counter_get k 0 (categories a')
  = counter_get k 0 (categories a) + occurrences k (map category_of todo)
  /\ counter_get k 0 (status_distribution a')
     = counter_get k 0 (status_distribution a)
       + occurrences k (map status_of todo)
  /\ counter_get k 0 (technologies a')
     = counter_get k 0 (technologies a)
       + occurrences k (flat_map techs_of todo).
Proof.
  induction 1 as [i a|i p rest e es a a1 a' He Hu Hr IH].
  - unfold occurrences. simpl. lia.
  - destruct (update_counts _ _ _ _ k Hu) as (U1 & U2 & U3).
    destruct (labels_frame _ _ He) as (F1 & F2 & F3).
    destruct IH as (I1 & I2 & I3).
    rewrite F1 in U1. rewrite F2 in U2. rewrite F3 in U3.
    cbn [map flat_map].
    rewrite (occurrences_cons k (category_of p)).
    rewrite (occurrences_cons k (status_of p)).
    rewrite (occurrences_app k (techs_of p)).
    lia.
Qed.

End CountFacts.

(** Whenever [transform] returns, the count of a label in [categories]
    is the number of input records with that category (uncategorized
    when the key is missing), the count in [status_distribution] the
    number of records with that status (unknown when missing), and the
    count of a technology the number of times the records list it. *)
Theorem distributions_count_records (stamp : string) (clock : nat -> Z)
    (input : list record) (r : Aggregator.Transformed) (k : value) :
  Aggregator.transform stamp clock input = Ok r ->
  Aggregator.counter_get k 0 (Aggregator.categories (Aggregator.analytics r))
  = Folds.occurrences k (map Folds.category_of input)
  /\ Aggregator.counter_get k 0
       (Aggregator.status_distribution (Aggregator.analytics r))
     = Folds.occurrences k (map Folds.status_of input)
  /\ Aggregator.counter_get k 0
       (Aggregator.technologies (Aggregator.analytics r))
     = Folds.occurrences k (flat_map Folds.techs_of input).
Proof.
  intros H. destruct (FoldFacts.transform_run _ _ _ _ H) as (a & i & Hr & _ & ->).
  simpl. apply (CountFacts.run_counts clock k) in Hr. simpl in Hr. exact Hr.
Qed.

Module SummaryFacts.
Import Dyn Enricher Aggregator Folds Summaries Schema.

Lemma summary_frame p e :
  _enrich_project_data p = Ok e ->
  (forall s, recent_summary_of e s -> recent_summary_of p s)
  /\ (forall s, featured_summary_of e s -> featured_summary_of p s)
  /\ featured_test e = featured_test p.
Proof.
  intros H. unfold recent_summary_of, featured_summary_of, featured_test,
    Dict.get_default.
  rewrite (EnricherFacts.enrich_frame p e "id" H eq_refl).
  rewrite (EnricherFacts.enrich_frame p e "title" H eq_refl).
  rewrite (EnricherFacts.enrich_frame p e "category" H eq_refl).
  rewrite (EnricherFacts.enrich_frame p e "startDate" H eq_refl).
  rewrite (EnricherFacts.enrich_frame p e "technologies" H eq_refl).
  rewrite (EnricherFacts.enrich_frame p e "featured" H eq_refl).
  repeat split; auto.
Qed.

Lemma getitem_ok {A} k (d : list (string * A)) v :
  Dict.getitem k d = Ok v -> Dict.get k d = Some v.
Proof.
  unfold Dict.getitem. destruct (Dict.get k d); [|discriminate].
  intros [= ->]. reflexivity.
Qed.

Lemma update_lists now a e a' :
  _update_analytics now a e = Ok a' ->
  (if _is_recent_project now e
   then exists s, recent_summary_of e s
                  /\ recent_projects a' = recent_projects a ++ [s]
   else recent_projects a' = recent_projects a)
  /\ (if featured_test e
      then exists s, featured_summary_of e s
                     /\ featured_projects a' = featured_projects a ++ [s]
      else featured_projects a' = featured_projects a).
Proof.
  unfold _update_analytics, featured_test. intros H.
  bind_inv H. bind_inv H. bind_inv H. bind_inv H. bind_inv H. bind_inv H.
  injection H as <-. simpl. split.
  - destruct (_is_recent_project now e).
    + bind_inv E3. bind_inv E3. injection E3 as <-.
      eexists. split; [|reflexivity].
      exists x5, x6. repeat split; apply getitem_ok; assumption.
    + injection E3 as <-. reflexivity.
  - destruct (truthy (Dict.get_default "featured" (VBool false) e)).
    + bind_inv E4. bind_inv E4. bind_inv E4. injection E4 as <-.
      eexists. split; [|reflexivity].
      exists x5, x6, x7. repeat split; try assumption;
        apply getitem_ok; assumption.
    + injection E4 as <-. reflexivity.
Qed.

Lemma Forall2_snoc {A B} (R : A -> B -> Prop) l1 l2 x y :
  Forall2 R l1 l2 -> R x y -> Forall2 R (l1 ++ [x]) (l2 ++ [y]).
Proof. intros H1 H2. apply Forall2_app; [exact H1 | repeat constructor; exact H2]. Qed.

Lemma run_lists clock i todo es a a' :
  run clock i todo es a a' ->
  exists recent featured,
    recent_projects a' = recent_projects a ++ recent
    /\ Forall2 recent_summary_of (recent_inputs clock i todo) recent
    /\ featured_projects a' = featured_projects a ++ featured
    /\ Forall2 featured_summary_of (filter featured_test todo) featured.
Proof.
  induction 1 as [i a|i p rest e es a a1 a' He Hu Hr IH].
  - exists [], []. rewrite !app_nil_r. repeat split; constructor.
  - destruct IH as (rec & fea & R1 & R2 & F1 & F2).
    destruct (update_lists _ _ _ _ Hu) as [Ur Uf].
    destruct (summary_frame _ _ He) as (Sr & Sf & St).
    rewrite (TotalityFacts.recent_frame _ _ _ He) in Ur. rewrite St in Uf.
    cbn [recent_inputs filter].
    destruct (_is_recent_project (clock i) p), (featured_test p).
    + destruct Ur as (s & Hs & Ur), Uf as (s' & Hs' & Uf).
      exists (s :: rec), (s' :: fea). rewrite R1, F1, Ur, Uf, <- !app_assoc.
      repeat split; try reflexivity; try (constructor; auto); auto.
    + destruct Ur as (s & Hs & Ur).
      exists (s :: rec), fea. rewrite R1, F1, Ur, Uf, <- !app_assoc.
      repeat split; try reflexivity; try (constructor; auto); auto.
    + destruct Uf as (s' & Hs' & Uf).
      exists rec, (s' :: fea). rewrite R1, F1, Ur, Uf, <- !app_assoc.
      repeat split; try reflexivity; try (constructor; auto); auto.
    + exists rec, fea. rewrite R1, F1, Ur, Uf. repeat split; auto.
Qed.

End SummaryFacts.

(** Whenever [transform] returns, [featured_projects] holds one summary
    for each input record whose [featured] value is truthy, in input
    order, with the id, title and category of the record and its first
    three technologies; [recent_projects] holds one summary for each
    record that passes the recent test, in input order. *)
Theorem summaries_follow_input (stamp : string) (clock : nat -> Z)
    (input : list record) (r : Aggregator.Transformed) :
  Aggregator.transform stamp clock input = Ok r ->
  Forall2 Summaries.featured_summary_of
    (filter Schema.featured_test input)
    (Aggregator.featured_projects (Aggregator.analytics r))
  /\ Forall2 Summaries.recent_summary_of
       (Folds.recent_inputs clock 0 input)
       (Aggregator.recent_projects (Aggregator.analytics r)).
Proof.
  intros H. destruct (FoldFacts.transform_run _ _ _ _ H) as (a & i & Hr & _ & ->).
  simpl. destruct (SummaryFacts.run_lists _ _ _ _ _ _ Hr)
    as (rec & fea & R1 & R2 & F1 & F2).
  simpl in R1, F1. subst. split; assumption.
Qed.

Module InsightMore.
Import Dyn Enricher Aggregator Folds Maxima.

Lemma max_by_count_first : forall rest pre best mid,
  Forall (fun x => snd x < snd best) pre ->
  Forall (fun x => snd x <= snd best) mid ->
  exists before after,
    pre ++ best :: mid ++ rest
    = before ++ max_by_count best rest :: after
    /\ Forall (fun x => snd x < snd (max_by_count best rest)) before
    /\ Forall (fun x => snd x <= snd (max_by_count best rest)) after.
Proof.
  induction rest as [|item t IH]; intros pre best mid Hp Hm; simpl.
  - exists pre, mid. rewrite app_nil_r. repeat split; assumption.
  - destruct (Z.ltb_spec (snd best) (snd item)) as [Hlt|Hge].
    + destruct (IH (pre ++ best :: mid) item []) as (b & a & E & Hb & Ha).
      * apply Forall_app. split.
        -- eapply Forall_impl; [|exact Hp]. simpl. intros; lia.
        -- constructor; [exact Hlt|].
           eapply Forall_impl; [|exact Hm]. simpl. intros; lia.
      * constructor.
      * exists b, a. rewrite <- E. rewrite <- !app_assoc. simpl.
        repeat split; assumption.
    + destruct (IH pre best (mid ++ [item])) as (b & a & E & Hb & Ha).
      * exact Hp.
      * apply Forall_app. split; [exact Hm|]. repeat constructor. exact Hge.
      * exists b, a. rewrite <- E. rewrite <- !app_assoc. simpl.
        repeat split; assumption.
Qed.

Lemma most_first (c : counter) :
  match most c with
  | Some (INameCount k n) => first_maximum c k n
  | Some _ => False
  | None => c = []
  end.
Proof.
  unfold most. destruct c as [|first t]; [reflexivity|].
  destruct (max_by_count_first t [] first []) as (b & a & E & Hb & Ha);
    try constructor.
  simpl in E. exists b, a. rewrite E.
  destruct (max_by_count first t); simpl in *. repeat split; assumption.
Qed.

Lemma insights_entries (a : Analytics) :
  exists i,
    _generate_insights a = Ok i
    /\ Dict.get "most_used_technology" i = most (technologies a)
    /\ Dict.get "most_common_category" i = most (categories a)
    /\ Dict.get "completion_rate" i
       = Some (if 0 <? total_projects a
               then IRate (counter_get (VStr "completed") 0
                             (status_distribution a)) (total_projects a)
               else IInt 0).
Proof.
  unfold _generate_insights, Dict.get_default.
  rewrite InsightFacts.no_projects_key. simpl.
  eexists; split; [reflexivity|].
  destruct (most (technologies a)), (most (categories a)); repeat split.
Qed.

Lemma occurrences_bounds k l :
  0 <= occurrences k l <= Z.of_nat (List.length l).
Proof.
  unfold occurrences. pose proof (filter_length_le (key_eqb k) l). lia.
Qed.

Lemma run_total clock i todo es a a' :
  run clock i todo es a a' -> total_projects a' = total_projects a.
Proof.
  induction 1 as [|i p rest e es a a1 a' He Hu Hr IH]; [reflexivity|].
  apply AggregatorFacts.update_analytics_sums in Hu. rewrite IH. apply Hu.
Qed.

End InsightMore.

(** Whenever [transform] returns, [most_used_technology] is the first
    entry of [technologies] with the largest count and is missing only
    when no technology was counted; likewise [most_common_category]
    with [categories]. *)
Theorem most_is_first_maximum (stamp : string) (clock : nat -> Z)
    (input : list record) (r : Aggregator.Transformed) :
  Aggregator.transform stamp clock input = Ok r ->
  exists i,
    Aggregator.insights (Aggregator.analytics r) = Some i
    /\ match Dict.get "most_used_technology" i with
       | Some (Aggregator.INameCount k n) =>
           Maxima.first_maximum
             (Aggregator.technologies (Aggregator.analytics r)) k n
       | Some _ => False
       | None => Aggregator.technologies (Aggregator.analytics r) = []
       end
    /\ match Dict.get "most_common_category" i with
       | Some (Aggregator.INameCount k n) =>
           Maxima.first_maximum
             (Aggregator.categories (Aggregator.analytics r)) k n
       | Some _ => False
       | None => Aggregator.categories (Aggregator.analytics r) = []
       end.
Proof.
  intros H. destruct (FoldFacts.transform_run _ _ _ _ H) as (a & i & _ & Hi & ->).
  exists i. split; [reflexivity|]. simpl.
  destruct (InsightMore.insights_entries a) as (i' & Hi' & Ht & Hc & _).
  rewrite Hi in Hi'. injection Hi' as <-. rewrite Ht, Hc.
  split; apply InsightMore.most_first.
Qed.

(** Whenever [transform] returns, [completion_rate] is the integer 0
    for an empty input; otherwise it is the quotient of the number of
    records whose status is [completed] by the number of records, the
    former never above the latter. *)
Theorem completion_rate_bounds (stamp : string) (clock : nat -> Z)
    (input : list record) (r : Aggregator.Transformed) :
  Aggregator.transform stamp clock input = Ok r ->
  exists i,
    Aggregator.insights (Aggregator.analytics r) = Some i
    /\ match Dict.get "completion_rate" i with
       | Some (Aggregator.IInt z) => z = 0 /\ input = []
       | Some (Aggregator.IRate c t) =>
           t = Z.of_nat (List.length input) /\ 0 < t
           /\ c = Folds.occurrences (VStr "completed")
                    (map Folds.status_of input)
           /\ 0 <= c <= t
       | _ => False
       end.
Proof.
  intros H.
  destruct (distributions_count_records _ _ _ _ (VStr "completed") H)
    as (_ & Hs & _).
  assert (Ht : Aggregator.total_projects (Aggregator.analytics r) = Z.of_nat (List.length input)).
  { destruct (FoldFacts.transform_run _ _ _ _ H) as (a & i & Hr & _ & ->). simpl.
    apply InsightMore.run_total in Hr. exact Hr. }
  destruct (FoldFacts.transform_run _ _ _ _ H) as (a & i & _ & Hi & E).
  rewrite E in *. simpl in Hs, Ht. exists i. split; [reflexivity|].
  destruct (InsightMore.insights_entries a) as (i' & Hi' & _ & _ & Hc).
  rewrite Hi in Hi'. injection Hi' as <-. rewrite Hc, Hs, Ht.
  pose proof (InsightMore.occurrences_bounds (VStr "completed")
                (map Folds.status_of input)) as Hb.
  rewrite length_map in Hb.
  destruct (Z.ltb_spec 0 (Z.of_nat (List.length input))).
  - repeat split; lia.
  - split; [reflexivity|]. destruct input; [reflexivity | simpl in *; lia].
Qed.

Module KeyFacts.
Import PyStr Dyn Enricher EnrichSteps.

Lemma set_keys {A} k (v : A) d :
  map fst (Dict.set k v d)
  = map fst d ++ (if Dict.mem k d then [] else [k]).
Proof.
  unfold Dict.mem. induction d as [|[k0 v0] t IH]; simpl; [reflexivity|].
  destruct (String.eqb_spec k k0) as [->|Hne]; simpl.
  - rewrite app_nil_r. reflexivity.
  - rewrite IH. reflexivity.
Qed.

Lemma set_extends {A} k (v : A) d :
  exists extra, map fst (Dict.set k v d) = map fst d ++ extra.
Proof. rewrite set_keys. eexists; reflexivity. Qed.

Lemma mem_set {A} k k' (v : A) d :
  Dict.mem k' (Dict.set k v d) = String.eqb k' k || Dict.mem k' d.
Proof.
  unfold Dict.mem. rewrite DictFacts.get_set.
  destruct (String.eqb k' k); reflexivity.
Qed.

Lemma take_length n : forall s,
  String.length (take n s) = Nat.min n (String.length s).
Proof.
  unfold take. induction n as [|n IH]; intros [|c s]; simpl; try reflexivity.
  rewrite IH. reflexivity.
Qed.

Lemma take_prefix n : forall s, String.prefix (take n s) s = true.
Proof.
  unfold take. induction n as [|n IH]; intros [|c s]; simpl; try reflexivity.
  destruct (ascii_dec c c) as [_|Hne]; [apply IH | elim Hne; reflexivity].
Qed.

End KeyFacts.

(** Whenever enrichment returns, the enriched record keeps every key of
    the input in its place, with its value unless it is one of the six
    derived keys; [slug], [content_hash], [seo_metadata],
    [data_quality_score] and [formatted_description] are present, and
    [duration_days] is present exactly when the input has both dates or
    had the key already. *)
Theorem enrichment_extends_input (project e : record) :
  Enricher._enrich_project_data project = Ok e ->
  (exists added, map fst e = map fst project ++ added)
  /\ (forall k, existsb (String.eqb k) EnrichSteps.written = false ->
                Dict.get k e = Dict.get k project)
  /\ Dict.mem "slug" e = true /\ Dict.mem "content_hash" e = true
  /\ Dict.mem "seo_metadata" e = true
  /\ Dict.mem "data_quality_score" e = true
  /\ Dict.mem "formatted_description" e = true
  /\ Dict.mem "duration_days" e
     = (Dict.mem "startDate" project && Dict.mem "endDate" project)
       || Dict.mem "duration_days" project.
Proof.
  intros H. split; [|split].
  - destruct (EnricherFacts.enrich_ok _ _ H)
      as (slug & seo & f & _ & _ & _ & ->).
    unfold EnrichSteps.with_duration, EnrichSteps.with_slug.
    rewrite !KeyFacts.set_keys.
    destruct (Dict.get "startDate" project), (Dict.get "endDate" project),
      (Dict.mem "slug" project) eqn:Es;
      rewrite ?KeyFacts.set_keys, <- ?app_assoc; eexists; reflexivity.
  - intros k Hk. apply EnricherFacts.enrich_frame; assumption.
  - destruct (EnricherFacts.enrich_ok _ _ H)
      as (slug & seo & f & _ & _ & _ & ->).
    rewrite !KeyFacts.mem_set. simpl.
    unfold EnrichSteps.with_duration, EnrichSteps.with_slug, Dict.mem.
    destruct (Dict.get "startDate" project), (Dict.get "endDate" project),
      (Dict.get "slug" project) eqn:Es;
      rewrite ?DictFacts.get_set; simpl; rewrite ?Es;
      repeat split;
      destruct (Dict.get "duration_days" project); reflexivity.
Qed.

(** Whenever enrichment returns and [shortDescription] is a str (or is
    missing), [meta_description] is its prefix of at most 160
    characters: the whole text when it is no longer than that. *)
Theorem meta_description_truncated (project e : record) (d : string) :
  Enricher._enrich_project_data project = Ok e ->
  Dict.get_default "shortDescription" (VStr "") project = VStr d ->
  exists seo m,
    Dict.get "seo_metadata" e = Some (VDict seo)
    /\ Dict.get "meta_description" seo = Some (VStr m)
    /\ String.prefix m d = true
    /\ String.length m = Nat.min 160 (String.length d).
Proof.
  intros H Hd.
  destruct (EnricherFacts.enrich_ok _ _ H)
    as (slug & seo & f & _ & Hseo & _ & ->).
  unfold Enricher._generate_seo_metadata in Hseo. rewrite Hd in Hseo.
  cbn [Dyn.slice bind] in Hseo.
  bind_inv Hseo. bind_inv Hseo. bind_inv Hseo. bind_inv Hseo.
  injection Hseo as <-.
  eexists. exists (PyStr.take 160 d).
  split; [rewrite !DictFacts.get_set; reflexivity|].
  split; [reflexivity|].
  split; [apply KeyFacts.take_prefix | apply KeyFacts.take_length].
Qed.

Module ShapeFacts.
Import PyStr Slug Shapes.

Lemma settled_alnum c :
  settled c -> is_hyphen c = true \/ (is_alnum c = true /\ lower_char c = c).
Proof.
  intros (Hl & Hk & Hs & Hsep). unfold keep, is_word in Hk.
  unfold is_sep in Hsep. rewrite Hs in *. simpl in *.
  destruct (is_hyphen c); [left; reflexivity | right].
  destruct (Ascii.eqb c "_"); simpl in *.
  - discriminate (Hsep eq_refl).
  - rewrite !orb_false_r in Hk. split; assumption.
Qed.

Lemma rstrip_last p d : forall l,
  rstrip p l <> [] -> p (last (rstrip p l) d) = false.
Proof.
  induction l as [|c t IH]; simpl; [congruence|].
  destruct (rstrip p t) as [|x t'] eqn:E.
  - destruct (p c) eqn:Ec; [congruence | intros _; exact Ec].
  - intros _. change (p (last (x :: t') d) = false). apply IH. congruence.
Qed.

Lemma lstrip_length p l : (List.length (lstrip p l) <= List.length l)%nat.
Proof.
  induction l as [|c t IH]; simpl; [lia|]. destruct (p c); simpl; lia.
Qed.

Lemma rstrip_length p l : (List.length (rstrip p l) <= List.length l)%nat.
Proof.
  induction l as [|c t IH]; simpl; [lia|].
  destruct (rstrip p t); [destruct (p c)|]; simpl in *; lia.
Qed.

Lemma sub_seps_length b l : (List.length (sub_seps b l) <= List.length l)%nat.
Proof.
  revert b; induction l as [|c t IH]; intros b; simpl; [lia|].
  destruct (is_sep c); [destruct b|]; simpl;
    try (pose proof (IH true)); try (pose proof (IH false)); lia.
Qed.

Lemma slug_chars_length l : (List.length (slug_chars l) <= List.length l)%nat.
Proof.
  unfold slug_chars, strip_by, sub_special.
  pose proof (rstrip_length is_hyphen
    (lstrip is_hyphen (sub_seps false (filter keep
       (rstrip is_space (lstrip is_space (map lower_char l))))))).
  pose proof (lstrip_length is_hyphen
    (sub_seps false (filter keep
       (rstrip is_space (lstrip is_space (map lower_char l)))))).
  pose proof (sub_seps_length false
    (filter keep (rstrip is_space (lstrip is_space (map lower_char l))))).
  pose proof (filter_length_le keep
    (rstrip is_space (lstrip is_space (map lower_char l)))).
  pose proof (rstrip_length is_space (lstrip is_space (map lower_char l))).
  pose proof (lstrip_length is_space (map lower_char l)).
  rewrite length_map in *. lia.
Qed.

Lemma hex_digit_hex n : 0 <= n < 16 -> is_hex (Json.hex_digit n) = true.
Proof.
  intros H.
  assert (Hall : forallb (fun k => is_hex (Json.hex_digit k))
                   (map Z.of_nat (seq 0 16)) = true) by reflexivity.
  rewrite forallb_forall in Hall. apply Hall.
  apply in_map_iff. exists (Z.to_nat n). split; [lia | apply in_seq; lia].
Qed.

Lemma le_bytes_range n x : Forall (fun b => 0 <= b < 256) (Md5.le_bytes n x).
Proof.
  unfold Md5.le_bytes. apply Forall_forall. intros b Hb.
  apply in_map_iff in Hb. destruct Hb as (k & <- & _).
  change 255 with (Z.ones 8). rewrite Z.land_ones by lia.
  apply Z.mod_pos_bound. reflexivity.
Qed.

Lemma le_bytes_length n x : List.length (Md5.le_bytes n x) = n.
Proof. unfold Md5.le_bytes. rewrite length_map, length_seq. reflexivity. Qed.

Lemma digest_bytes msg :
  List.length (Md5.digest msg) = 16%nat
  /\ Forall (fun b => 0 <= b < 256) (Md5.digest msg).
Proof.
  unfold Md5.digest.
  destruct (fold_left _ _ Md5.init) as [[[a b] c] d].
  split.
  - rewrite !length_app, !le_bytes_length. reflexivity.
  - repeat (apply Forall_app; split); apply le_bytes_range.
Qed.

Lemma hex_bytes l :
  Forall (fun b => 0 <= b < 256) l ->
  List.length (flat_map Md5.hex_byte l) = (2 * List.length l)%nat
  /\ Forall (fun c => is_hex c = true) (flat_map Md5.hex_byte l).
Proof.
  induction 1 as [|b t Hb Ht [IH1 IH2]]; simpl; [split; [reflexivity | constructor]|].
  split; [lia|].
  constructor; [|constructor; [|exact IH2]]; apply hex_digit_hex.
  - split; [apply Z.div_pos; lia | apply Z.div_lt_upper_bound; lia].
  - apply Z.mod_pos_bound. lia.
Qed.

End ShapeFacts.

(** The slug of every title consists of hyphens and lower-case
    alphanumeric characters; it neither starts nor ends with a hyphen,
    has no two hyphens in a row, and is no longer than the title. *)
Theorem slug_shape (title : string) :
  let s := PyStr.chars (Slug._generate_slug title) in
  Forall (fun c => PyStr.is_hyphen c = true
                   \/ (PyStr.is_alnum c = true /\ PyStr.lower_char c = c)) s
  /\ Slug.spaced false s = true
  /\ (forall d, s <> [] ->
      PyStr.is_hyphen (hd d s) = false /\ PyStr.is_hyphen (last s d) = false)
  /\ (List.length s <= String.length title)%nat.
Proof.
  unfold Slug._generate_slug, PyStr.str, PyStr.chars. cbv zeta.
  rewrite list_ascii_of_string_of_list_ascii.
  set (l := list_ascii_of_string title).
  split; [|split; [|split]].
  - eapply Forall_impl; [|apply SlugFacts.slug_chars_settled].
    apply ShapeFacts.settled_alnum.
  - apply SlugFacts.slug_chars_spaced.
  - intros d Hne. unfold Slug.slug_chars, PyStr.strip_by in *.
    split.
    + pose proof (SlugFacts.rstrip_head PyStr.is_hyphen _
                    (SlugFacts.lstrip_head PyStr.is_hyphen
                       (Slug.sub_seps false (Slug.sub_special
                          (PyStr.rstrip PyStr.is_space
                             (PyStr.lstrip PyStr.is_space
                                (map PyStr.lower_char l))))))) as Hh.
      destruct (PyStr.rstrip PyStr.is_hyphen _); [congruence | exact Hh].
    + apply ShapeFacts.rstrip_last. exact Hne.
  - pose proof (ShapeFacts.slug_chars_length l) as H.
    unfold l in H at 2. 
    assert (E : forall s, List.length (list_ascii_of_string s) = String.length s).
    { induction s as [|c s IH]; simpl; [reflexivity | rewrite IH; reflexivity]. }
    rewrite E in H. exact H.
Qed.

(** The content hash of every record is a text of 32 lower-case
    hexadecimal digits. *)
Theorem content_hash_is_hex (project : record) :
  String.length (Enricher._generate_content_hash project) = 32%nat
  /\ Forall (fun c => Shapes.is_hex c = true)
       (PyStr.chars (Enricher._generate_content_hash project)).
Proof.
  unfold Enricher._generate_content_hash, Md5.hexdigest, PyStr.str, PyStr.chars.
  set (msg := map _ (list_ascii_of_string _)).
  destruct (ShapeFacts.digest_bytes msg) as [Hlen Hr].
  destruct (ShapeFacts.hex_bytes _ Hr) as [Hl Hh].
  rewrite list_ascii_of_string_of_list_ascii. split; [|exact Hh].
  assert (E : forall l, String.length (string_of_list_ascii l) = List.length l).
  { induction l as [|c l IH]; simpl; [reflexivity | rewrite IH; reflexivity]. }
  rewrite E, Hl, Hlen. reflexivity.
Qed.

Module ScoreFacts.
Import PyStr Dyn Enricher.

Lemma get_set_absent {A} k k' (v : A) d x :
  Dict.mem k d = false -> Dict.get k' d = Some x ->
  Dict.get k' (Dict.set k v d) = Some x.
Proof.
  intros Hm Hg. rewrite DictFacts.get_set.
  destruct (String.eqb_spec k' k) as [->|_]; [|exact Hg].
  unfold Dict.mem in Hm. rewrite Hg in Hm. discriminate.
Qed.

Lemma split_nonempty sep s : split sep s <> [].
Proof.
  unfold split. destruct sep as [|c0 sep']; [discriminate|].
  generalize (@nil ascii) as cur. generalize (String.length s) as fuel.
  intros fuel; revert s; induction fuel as [|fuel IH]; intros s cur;
    destruct s as [|a t]; simpl; try discriminate.
  destruct (Ascii.eqb a c0 && String.prefix sep' t)%bool;
    [discriminate | apply IH].
Qed.

(** A check that passes still passes, on the same value, once a key
    that was missing is added. *)
Lemma nested_kept p k v path :
  Dict.mem k p = false ->
  truthy (_get_nested_value p path) = true ->
  _get_nested_value (Dict.set k v p) path = _get_nested_value p path.
Proof.
  intros Hm. unfold _get_nested_value.
  pose proof (split_nonempty "." path) as Hne.
  destruct (split "." path) as [|key rest]; [congruence|]. simpl.
  destruct (Dict.get key p) as [x|] eqn:Eg; [|discriminate].
  rewrite (get_set_absent k key v p x Hm Eg). reflexivity.
Qed.

Lemma fold_checks_le (f g : string -> bool) : forall cs a b,
  Forall (fun c => 0 <= snd c) cs ->
  (forall c, In c cs -> f (fst c) = true -> g (fst c) = true) ->
  a <= b ->
  fold_left (fun s c => if f (fst c) then s + snd c else s) cs a
  <= fold_left (fun s c => if g (fst c) then s + snd c else s) cs b.
Proof.
  induction cs as [|c cs IH]; intros a b Hw Hfg Hab; simpl; [exact Hab|].
  inversion Hw; subst. apply IH; [assumption | intros; apply Hfg; auto; right; assumption|].
  specialize (Hfg c (or_introl eq_refl)).
  destruct (f (fst c)); [rewrite Hfg by reflexivity; lia|].
  destruct (g (fst c)); lia.
Qed.

End ScoreFacts.

(** Adding a key that a record does not have never lowers its data
    quality score. *)
Theorem score_grows_with_fields (p : record) (k : string) (v : value) :
  Dict.mem k p = false ->
  Enricher.score_of p <= Enricher.score_of (Dict.set k v p).
Proof.
  intros Hm. unfold Enricher.score_of.
  apply (ScoreFacts.fold_checks_le
           (fun path => truthy (Enricher._get_nested_value p path))
           (fun path => truthy (Enricher._get_nested_value (Dict.set k v p) path))).
  - unfold Enricher.checks. repeat constructor; simpl; lia.
  - intros c _ Ht. rewrite (ScoreFacts.nested_kept p k v _ Hm Ht). exact Ht.
  - lia.
Qed.

(** [score_grows_with_fields] at a concrete input. *)
Lemma score_grows_with_fields_witness :
  Dict.mem "technologies" Scenario.cool_app = false
  /\ Enricher.score_of Scenario.cool_app = 25
  /\ Enricher.score_of
       (Dict.set "technologies" (VList [VStr "Rocq"]) Scenario.cool_app) = 35
  /\ Enricher.score_of Scenario.cool_app
     <= Enricher.score_of
          (Dict.set "technologies" (VList [VStr "Rocq"]) Scenario.cool_app).
Proof.
  split; [reflexivity|]. split; [reflexivity|]. split; [reflexivity|].
  exact (score_grows_with_fields Scenario.cool_app "technologies"
           (VList [VStr "Rocq"]) eq_refl).
Defined.

Module RendererFacts.
Import PyStr Dyn Enricher Aggregator Folds Renderer Schema.

Lemma each_ok {A B} (f : A -> result B) l :
  Forall (fun a => exists b, f a = Ok b) l -> exists bs, each f l = Ok bs.
Proof.
  induction 1 as [|a t [b Hb] Ht [bs IH]]; simpl; [eexists; reflexivity|].
  rewrite Hb, IH. simpl. eexists; reflexivity.
Qed.

Lemma each_raise {A B} (f : A -> result B) l (bad : exn -> Prop) :
  Forall (fun a => (exists b, f a = Ok b) \/ exists e, f a = Raise e /\ bad e) l ->
  Exists (fun a => exists e, f a = Raise e) l ->
  exists e, each f l = Raise e /\ bad e.
Proof.
  induction 1 as [|a t Ha Ht IH]; intros Hex; [inversion Hex|]. simpl.
  destruct Ha as [[b Hb]|[e [He Hbad]]].
  - rewrite Hb. simpl. inversion Hex as [? ? [e He]|? ? Hex']; subst;
      [congruence|].
    destruct (IH Hex') as [e [-> Hbad]]. simpl. exists e. split; auto.
  - rewrite He. simpl. exists e. split; auto.
Qed.

Lemma Forall_firstn {A} (P : A -> Prop) n : forall l,
  Forall P l -> Forall P (firstn n l).
Proof.
  induction n as [|n IH]; intros [|a l] H; simpl; try constructor;
    inversion H; subst; auto.
Qed.

Lemma badges_after_seo p seo :
  _generate_seo_metadata p = Ok seo -> exists b, badges p = Ok b.
Proof.
  unfold _generate_seo_metadata, badges. intros H. bind_inv H. bind_inv H.
  destruct (Dict.get_default "technologies" (VList []) p);
    try discriminate; simpl; eexists; reflexivity.
Qed.

(** How the two card templates end on an enriched record. *)
Lemma card_outcome p e :
  _enrich_project_data p = Ok e ->
  match Dict.get "title" p, Dict.get "id" p with
  | Some _, Some _ =>
      (exists h, card e = Ok h) /\ (exists h, featured_card e = Ok h)
  | None, _ =>
      card e = Raise (KeyError "title")
      /\ featured_card e = Raise (KeyError "title")
  | Some _, None =>
      card e = Raise (KeyError "id")
      /\ featured_card e = Raise (KeyError "id")
  end.
Proof.
  intros H.
  destruct (EnricherFacts.enrich_ok _ _ H) as (_ & seo & _ & _ & Hseo & _ & _).
  destruct (badges_after_seo _ _ Hseo) as [b Hb].
  assert (Hbe : badges e = Ok b).
  { unfold badges, Dict.get_default in *.
    rewrite (EnricherFacts.enrich_frame p e "technologies" H eq_refl).
    exact Hb. }
  unfold card, featured_card, Dict.getitem. rewrite Hbe.
  rewrite (EnricherFacts.enrich_frame p e "title" H eq_refl).
  rewrite (EnricherFacts.enrich_frame p e "id" H eq_refl).
  destruct (Dict.get "title" p), (Dict.get "id" p); simpl;
    split; try reflexivity; eexists; reflexivity.
Qed.

Lemma snippets_outcome input es :
  Forall2 (fun p e => _enrich_project_data p = Ok e) input es ->
  if forallb has_id_and_title input
  then exists out, _generate_html_snippets es = Ok out
  else exists key, _generate_html_snippets es = Raise (KeyError key).
Proof.
  intros Hall.
  assert (Hc : Forall (fun e => (exists h, card e = Ok h
                                  /\ exists h', featured_card e = Ok h')
                                 \/ exists x, card e = Raise x
                                              /\ is_key_error x) es
               /\ (forallb has_id_and_title input = true ->
                   Forall (fun e => (exists h, card e = Ok h)
                                    /\ exists h', featured_card e = Ok h') es)
               /\ (forallb has_id_and_title input = false ->
                   Exists (fun e => exists x, card e = Raise x) es)).
  { induction Hall as [|p e input es He Hall (IH1 & IH2 & IH3)]; simpl.
    - repeat split; [constructor | constructor | discriminate].
    - pose proof (card_outcome p e He) as Ho.
      unfold has_id_and_title at 1 3, Dict.mem.
      destruct (Dict.get "title" p), (Dict.get "id" p); simpl.
      + destruct Ho as [[h Hh] [h' Hh']]. repeat split.
        * constructor; [left; eauto | exact IH1].
        * intros Hf. constructor; [eauto | auto].
        * intros Hf. apply Exists_cons_tl; auto.
      + destruct Ho as [Ho _]. repeat split; try discriminate.
        * constructor; [right; eexists; split; [exact Ho | eexists; reflexivity] | exact IH1].
        * intros _. apply Exists_cons_hd. eauto.
      + destruct Ho as [Ho _]. repeat split; try discriminate.
        * constructor; [right; eexists; split; [exact Ho | eexists; reflexivity] | exact IH1].
        * intros _. apply Exists_cons_hd. eauto.
      + destruct Ho as [Ho _]. repeat split; try discriminate.
        * constructor; [right; eexists; split; [exact Ho | eexists; reflexivity] | exact IH1].
        * intros _. apply Exists_cons_hd. eauto. }
  destruct Hc as (H1 & H2 & H3).
  unfold _generate_html_snippets, _generate_project_cards_html.
  destruct (forallb has_id_and_title input).
  - specialize (H2 eq_refl).
    destruct (each_ok card es) as [cs ->].
    { eapply Forall_impl; [|exact H2]. intros a Ha; apply Ha. }
    cbn [bind]. cbv zeta.
    match goal with
    | |- context [filter ?f es] => remember (filter f es) as fs eqn:Efs
    end.
    assert (Hf : Forall (fun e => exists h, featured_card e = Ok h)
                   (firstn 3 fs)).
    { apply Forall_firstn, Forall_forall. intros x Hx. rewrite Efs in Hx.
      apply filter_In in Hx. destruct Hx as [Hx _].
      rewrite Forall_forall in H2. apply H2, Hx. }
    destruct (each_ok featured_card _ Hf) as [fc Hfc].
    unfold _generate_featured_projects_html.
    destruct fs; [eexists; reflexivity|].
    unfold record in *. rewrite Hfc. simpl. eexists; reflexivity.
  - destruct (each_raise card es is_key_error) as (x & -> & [k ->]).
    + eapply Forall_impl; [|exact H1]. intros a [[h [Hh _]]|Hr]; eauto.
    + apply H3. reflexivity.
    + simpl. exists k. reflexivity.
Qed.

Lemma featured_html_nonempty ps h :
  _generate_featured_projects_html ps = Ok h -> ps <> [] -> h <> "".
Proof.
  unfold _generate_featured_projects_html. destruct ps as [|p ps];
    [congruence|]. intros H _. bind_inv H. injection H as <-.
  unfold join. simpl. destruct (x ++ _); discriminate.
Qed.

End RendererFacts.

(** For the projects of a run of [transform] that returned, the HTML
    snippets are produced when every input record has [id] and [title];
    otherwise their generation raises a KeyError, although [transform]
    accepted the records. *)
Theorem snippets_need_id_and_title (stamp : string) (clock : nat -> Z)
    (input : list record) (r : Aggregator.Transformed) :
  Aggregator.transform stamp clock input = Ok r ->
  if forallb Schema.has_id_and_title input
  then exists out,
         Renderer._generate_html_snippets (Aggregator.projects r) = Ok out
  else exists key,
         Renderer._generate_html_snippets (Aggregator.projects r)
         = Raise (KeyError key).
Proof.
  intros H. apply RendererFacts.snippets_outcome.
  destruct (FoldFacts.transform_run _ _ _ _ H) as (a & i & Hr & _).
  eapply FoldFacts.run_enriched, Hr.
Qed.

(** The featured section is the empty text exactly for an empty list,
    and it shows the first three projects only. *)
Theorem featured_html_first_three (ps : list record) :
  (Renderer._generate_featured_projects_html ps = Ok "" <-> ps = [])
  /\ Renderer._generate_featured_projects_html ps
     = Renderer._generate_featured_projects_html (firstn 3 ps).
Proof.
  split; [split|].
  - intros H. destruct ps as [|p ps]; [reflexivity|].
    elim (RendererFacts.featured_html_nonempty _ _ H); [discriminate | reflexivity].
  - intros ->. reflexivity.
  - destruct ps as [|p ps]; [reflexivity|].
    unfold Renderer._generate_featured_projects_html.
    rewrite firstn_firstn. reflexivity.
Qed.

Ltac portfolio_run r H :=
  assert (H : exists r, Aggregator.transform Portfolio.stamp Portfolio.clock
                          Portfolio.input = Ok r)
    by (eexists; vm_compute; reflexivity);
  destruct H as [r H].

(** [transform_projects_aligned] at a concrete input. *)
Lemma transform_projects_aligned_witness :
  exists r,
    Aggregator.transform Portfolio.stamp Portfolio.clock Portfolio.input = Ok r
    /\ List.length (Aggregator.projects r) = 3%nat.
Proof.
  portfolio_run r H. exists r. split; [exact H|].
  pose proof (transform_projects_aligned _ _ _ _ H) as Ha.
  apply Forall2_length in Ha. rewrite <- Ha. reflexivity.
Defined.

(** [distributions_count_records] at a concrete input. *)
Lemma distributions_count_records_witness :
  exists r,
    Aggregator.transform Portfolio.stamp Portfolio.clock Portfolio.input = Ok r
    /\ Aggregator.counter_get (VStr "completed") 0
         (Aggregator.status_distribution (Aggregator.analytics r)) = 2
    /\ Aggregator.counter_get (VStr "uncategorized") 0
         (Aggregator.categories (Aggregator.analytics r)) = 2
    /\ Aggregator.counter_get (VStr "Rocq") 0
         (Aggregator.technologies (Aggregator.analytics r)) = 1.
Proof.
  portfolio_run r H. exists r. split; [exact H|].
  destruct (distributions_count_records _ _ _ _ (VStr "completed") H)
    as (_ & -> & _).
  destruct (distributions_count_records _ _ _ _ (VStr "uncategorized") H)
    as (-> & _).
  destruct (distributions_count_records _ _ _ _ (VStr "Rocq") H)
    as (_ & _ & ->).
  repeat split.
Defined.

(** [summaries_follow_input] at a concrete input. *)
Lemma summaries_follow_input_witness :
  exists r,
    Aggregator.transform Portfolio.stamp Portfolio.clock Portfolio.input = Ok r
    /\ Forall2 Summaries.featured_summary_of [Portfolio.orbit]
         (Aggregator.featured_projects (Aggregator.analytics r))
    /\ Forall2 Summaries.recent_summary_of
         [Scenario.completed_project; Portfolio.orbit]
         (Aggregator.recent_projects (Aggregator.analytics r)).
Proof.
  portfolio_run r H. exists r. split; [exact H|].
  exact (summaries_follow_input _ _ _ _ H).
Defined.

(** [most_is_first_maximum] at a concrete input. *)
Lemma most_is_first_maximum_witness :
  exists r i,
    Aggregator.transform Portfolio.stamp Portfolio.clock Portfolio.input = Ok r
    /\ Aggregator.insights (Aggregator.analytics r) = Some i
    /\ Dict.get "most_common_category" i
       = Some (Aggregator.INameCount (VStr "uncategorized") 2)
    /\ Maxima.first_maximum
         (Aggregator.categories (Aggregator.analytics r))
         (VStr "uncategorized") 2.
Proof.
  portfolio_run r H.
  destruct (most_is_first_maximum _ _ _ _ H) as (i & Hi & _ & Hc).
  exists r, i. split; [exact H|]. split; [exact Hi|].
  assert (E : Dict.get "most_common_category" i
              = Some (Aggregator.INameCount (VStr "uncategorized") 2)).
  { vm_compute in H. injection H as <-. injection Hi as <-. reflexivity. }
  rewrite E in Hc. split; [exact E | exact Hc].
Defined.

(** [completion_rate_bounds] at a concrete input. *)
Lemma completion_rate_bounds_witness :
  exists r i,
    Aggregator.transform Portfolio.stamp Portfolio.clock Portfolio.input = Ok r
    /\ Aggregator.insights (Aggregator.analytics r) = Some i
    /\ Dict.get "completion_rate" i = Some (Aggregator.IRate 2 3).
Proof.
  portfolio_run r H.
  destruct (completion_rate_bounds _ _ _ _ H) as (i & Hi & Hc).
  exists r, i. split; [exact H|]. split; [exact Hi|].
  destruct (Dict.get "completion_rate" i) as [[| |c t|]|];
    try contradiction.
  - destruct Hc as [_ Hc]. discriminate Hc.
  - destruct Hc as (-> & _ & -> & _). reflexivity.
Defined.

(** [enrichment_extends_input] at a concrete input. *)
Lemma enrichment_extends_input_witness :
  exists e,
    Enricher._enrich_project_data Scenario.cool_app = Ok e
    /\ Dict.get "title" e = Some (VStr "My Cool App!")
    /\ Dict.mem "slug" e = true
    /\ Dict.mem "duration_days" e = false.
Proof.
  assert (H : exists e, Enricher._enrich_project_data Scenario.cool_app = Ok e)
    by (eexists; vm_compute; reflexivity).
  destruct H as [e H]. exists e. split; [exact H|].
  destruct (enrichment_extends_input _ _ H)
    as (_ & Hf & Hs & _ & _ & _ & _ & Hd).
  split; [rewrite (Hf "title" eq_refl); reflexivity|].
  split; [exact Hs | rewrite Hd; reflexivity].
Defined.

(** [meta_description_truncated] at a concrete input. *)
Lemma meta_description_truncated_witness :
  exists e seo m,
    Enricher._enrich_project_data Scenario.cool_app = Ok e
    /\ Dict.get "seo_metadata" e = Some (VDict seo)
    /\ Dict.get "meta_description" seo = Some (VStr m)
    /\ String.length m = 30%nat.
Proof.
  assert (H : exists e, Enricher._enrich_project_data Scenario.cool_app = Ok e)
    by (eexists; vm_compute; reflexivity).
  destruct H as [e H].
  destruct (meta_description_truncated Scenario.cool_app e
              "It works. It scales. It ships." H eq_refl)
    as (seo & m & Hs & Hm & _ & Hl).
  exists e, seo, m. repeat split; assumption.
Defined.

(** [snippets_need_id_and_title] at a concrete input. *)
Lemma snippets_need_id_and_title_witness :
  exists r out,
    Aggregator.transform Portfolio.stamp Portfolio.clock Portfolio.input = Ok r
    /\ Renderer._generate_html_snippets (Aggregator.projects r) = Ok out.
Proof.
  portfolio_run r H.
  pose proof (snippets_need_id_and_title _ _ _ _ H) as Hs.
  change (forallb Schema.has_id_and_title Portfolio.input) with true in Hs.
  destruct Hs as [out Hs]. exists r, out. split; assumption.
Defined.

Module FormatFacts.
Import PyStr Sentences.

Local Open Scope nat_scope.

Lemma str_app l1 l2 : str (l1 ++ l2) = (str l1 ++ str l2)%string.
Proof.
  unfold str. induction l1 as [|c l1 IH]; simpl; [reflexivity|].
  rewrite IH. reflexivity.
Qed.

Lemma str_length l : String.length (str l) = List.length l.
Proof.
  unfold str. induction l as [|c l IH]; simpl; [reflexivity|].
  rewrite IH. reflexivity.
Qed.

Lemma append_length (a b : string) :
  String.length (a ++ b) = String.length a + String.length b.
Proof.
  induction a as [|c a IH]; simpl; [reflexivity|]. rewrite IH. reflexivity.
Qed.

Lemma append_assoc (a b c : string) :
  ((a ++ b) ++ c = a ++ (b ++ c))%string.
Proof.
  induction a as [|x a IH]; simpl; [reflexivity|]. rewrite IH. reflexivity.
Qed.

Lemma append_empty (a : string) : (a ++ "")%string = a.
Proof.
  induction a as [|x a IH]; simpl; [reflexivity|]. rewrite IH. reflexivity.
Qed.

Lemma str_snoc cur a t :
  (str (rev (a :: cur)) ++ t = str (rev cur) ++ String a t)%string.
Proof.
  simpl rev. rewrite str_app, append_assoc. reflexivity.
Qed.

Lemma append_inj_length : forall x1 x2 y1 y2 : string,
  String.length x1 = String.length x2 ->
  (x1 ++ y1 = x2 ++ y2)%string -> x1 = x2 /\ y1 = y2.
Proof.
  induction x1 as [|c x1 IH]; intros [|d x2] y1 y2 Hl H; simpl in *;
    try discriminate.
  - split; [reflexivity | exact H].
  - injection H as -> H. injection Hl as Hl.
    destruct (IH x2 y1 y2 Hl H) as [-> ->]. split; reflexivity.
Qed.

Lemma whole_substring : forall s, String.substring 0 (String.length s) s = s.
Proof.
  induction s as [|c s IH]; simpl; [reflexivity|]. rewrite IH. reflexivity.
Qed.

(** What [split_go] goes on with after a separator found at the head. *)
Lemma prefix_rest : forall p t,
  String.prefix p t = true ->
  t = (p ++ String.substring (String.length p)
              (String.length t - String.length p) t)%string.
Proof.
  induction p as [|c p IH]; intros t H.
  - simpl. rewrite Nat.sub_0_r, whole_substring. reflexivity.
  - destruct t as [|d t]; simpl in H; [discriminate|].
    destruct (ascii_dec c d) as [->|]; [|discriminate].
    simpl. f_equal. apply IH. exact H.
Qed.

Lemma prefix_append : forall p y, String.prefix p (p ++ y) = true.
Proof.
  induction p as [|c p IH]; intros y; simpl.
  - destruct y; reflexivity.
  - destruct (ascii_dec c c) as [_|Hne]; [apply IH | elim Hne; reflexivity].
Qed.

Lemma concat_cons sep h ps :
  ps <> [] ->
  String.concat sep (h :: ps) = (h ++ sep ++ String.concat sep ps)%string.
Proof. destruct ps; [congruence | reflexivity]. Qed.

Lemma last_cons (h d : string) ps : ps <> [] -> last (h :: ps) d = last ps d.
Proof. destruct ps; [congruence | reflexivity]. Qed.

(** The pieces joined by the separator give the text back, and the last
    piece is the text after the last separator. *)
Lemma concat_removelast sep : forall ps : list string,
  1 < List.length ps ->
  String.concat sep ps
  = (String.concat sep (removelast ps) ++ sep ++ last ps "")%string.
Proof.
  induction ps as [|h ps IH]; intros Hl; [simpl in Hl; lia|].
  destruct ps as [|h' ps]; [simpl in Hl; lia|].
  destruct ps as [|h'' ps].
  - reflexivity.
  - rewrite concat_cons by discriminate.
    rewrite IH by (simpl; lia).
    change (removelast (h :: h' :: h'' :: ps))
      with (h :: removelast (h' :: h'' :: ps)).
    rewrite concat_cons by (simpl; destruct ps; discriminate).
    rewrite last_cons by discriminate.
    rewrite !append_assoc. reflexivity.
Qed.

Lemma split_go_nonempty c0 sep' : forall fuel cur s,
  split_go c0 sep' cur s fuel <> [].
Proof.
  induction fuel as [|fuel IH]; intros cur [|a t]; simpl; try discriminate.
  destruct (Ascii.eqb a c0 && String.prefix sep' t)%bool;
    [discriminate | apply IH].
Qed.

Lemma no_room cur c0 sep' :
  (forall x y, (str (rev cur) ++ "" = x ++ String c0 sep' ++ y)%string ->
               List.length cur <= String.length x) ->
  forall x y, str (rev cur) <> (x ++ String c0 sep' ++ y)%string.
Proof.
  intros Inv x y E.
  assert (Hl : List.length cur <= String.length x)
    by (apply (Inv x y); rewrite append_empty; exact E).
  apply (f_equal String.length) in E.
  rewrite str_length, length_rev, !append_length in E. simpl in E. lia.
Qed.

(** [cur] holds what was read since the last separator, and no
    separator starts inside it. *)
Lemma split_go_spec c0 sep' : forall fuel cur s,
  String.length s <= fuel ->
  (forall x y, (str (rev cur) ++ s = x ++ String c0 sep' ++ y)%string ->
               List.length cur <= String.length x) ->
  String.concat (String c0 sep') (split_go c0 sep' cur s fuel)
  = (str (rev cur) ++ s)%string
  /\ forall x y, last (split_go c0 sep' cur s fuel) ""
                 <> (x ++ String c0 sep' ++ y)%string.
Proof.
  induction fuel as [|fuel IH]; intros cur s Hl Inv.
  - destruct s as [|a t]; [|simpl in Hl; lia]. simpl.
    split; [rewrite append_empty; reflexivity | apply no_room; exact Inv].
  - destruct s as [|a t].
    + simpl.
      split; [rewrite append_empty; reflexivity | apply no_room; exact Inv].
    + simpl in Hl. cbn [split_go].
      destruct (Ascii.eqb a c0 && String.prefix sep' t)%bool eqn:Ec.
      * apply andb_true_iff in Ec. destruct Ec as [Ea Ep].
        apply Ascii.eqb_eq in Ea. subst a.
        pose proof (prefix_rest _ _ Ep) as Et.
        set (rest := String.substring (String.length sep')
                       (String.length t - String.length sep') t) in *.
        assert (Hr : String.length rest <= fuel).
        { apply (f_equal String.length) in Et.
          rewrite append_length in Et. lia. }
        destruct (IH [] rest Hr) as [Hc Hf]; [intros; simpl; lia|].
        pose proof (split_go_nonempty c0 sep' fuel [] rest) as Hne.
        split.
        -- rewrite concat_cons by exact Hne. rewrite Hc. simpl.
           f_equal. f_equal. exact (eq_sym Et).
        -- rewrite last_cons by exact Hne. exact Hf.
      * destruct (IH (a :: cur) t) as [Hc Hf]; [lia | |].
        -- intros x y E. rewrite str_snoc in E.
           pose proof (Inv x y E) as Hx. simpl.
           destruct (Nat.eq_dec (List.length cur) (String.length x))
             as [Heq|]; [|lia].
           exfalso.
           destruct (append_inj_length (str (rev cur)) x (String a t)
                       (String c0 sep' ++ y)%string) as [_ Hs].
           { rewrite str_length, length_rev. exact Heq. }
           { exact E. }
           simpl in Hs. injection Hs as -> ->.
           rewrite Ascii.eqb_refl, prefix_append in Ec. discriminate.
        -- rewrite str_snoc in Hc. split; assumption.
Qed.

Lemma split_spec c0 sep' s :
  String.concat (String c0 sep') (split (String c0 sep') s) = s
  /\ forall x y, last (split (String c0 sep') s) ""
                 <> (x ++ String c0 sep' ++ y)%string.
Proof.
  unfold split.
  destruct (split_go_spec c0 sep' (String.length s) [] s) as [Hc Hf];
    [lia | intros; simpl; lia |].
  split; [exact Hc | exact Hf].
Qed.

Lemma single_piece c0 sep' s :
  List.length (split (String c0 sep') s) <= 1 ->
  split (String c0 sep') s = [s].
Proof.
  intros Hl. destruct (split_spec c0 sep' s) as [Hc _].
  pose proof (split_go_nonempty c0 sep' (String.length s) [] s) as Hne.
  fold (split (String c0 sep') s) in Hne.
  destruct (split (String c0 sep') s) as [|p [|q ps]];
    [congruence | simpl in Hc; subst p; reflexivity | simpl in Hl; lia].
Qed.

End FormatFacts.

(** [_format_description] on a text: a text without ['. '] is returned as
    it is; otherwise the last ['. '] of the text, and only that one, is
    replaced by a full stop and a blank line, and a full stop is added at
    the end, whatever the last sentence ends with. *)
Theorem format_description_breaks_last (s : string) :
  exists out,
    Enricher._format_description (VStr s) = Ok out
    /\ ((Sentences.unbroken s /\ out = s)
        \/ exists a b,
             s = (a ++ Sentences.stop ++ b)%string
             /\ Sentences.unbroken b
             /\ out = (a ++ Sentences.break ++ b ++ ".")%string).
Proof.
  unfold Enricher._format_description, Sentences.unbroken, Sentences.stop.
  destruct (FormatFacts.split_spec "." " " s) as [Hc Hf].
  change (String "." (String " " "")) with ". " in *.
  cbn [truthy Dyn.str_method bind negb].
  destruct (String.eqb_spec s "") as [->|Hne]; cbn [negb].
  - exists "". split; [reflexivity|]. left.
    split; [|reflexivity]. intros [|c x] y; simpl; discriminate.
  - destruct (1 <? Z.of_nat (List.length (PyStr.split ". " s)))%Z eqn:El.
    + apply Z.ltb_lt in El.
      eexists. split; [reflexivity|]. right.
      exists (PyStr.join ". " (removelast (PyStr.split ". " s))).
      exists (last (PyStr.split ". " s) "").
      split; [|split; [exact Hf|]].
      * rewrite <- Hc at 1. unfold PyStr.join.
        apply FormatFacts.concat_removelast. lia.
      * unfold Sentences.break. rewrite !FormatFacts.append_assoc.
        reflexivity.
    + apply Z.ltb_ge in El.
      exists s. split; [reflexivity|]. left. split; [|reflexivity].
      rewrite (FormatFacts.single_piece "." " " s) in Hf by lia.
      exact Hf.
Qed.
